(** * discord-play-register: the message handlers of [handlers.py]

    A shallow embedding of the handler set of the play-register bot and the
    properties of its message interpretation: mention splitting, keyword
    matching, multi-game extraction and the per-handler responses.

    Text is modelled as Rocq [string]s, i.e. as the UTF-8 byte string of the
    Python [str].  Prefix tests, searches, slices and splits on ASCII
    delimiters agree between the two views.  [strip] removes the white-space
    characters of [str.isspace], of one, two or three bytes.  [lower] folds
    the ASCII letters and leaves the bytes above 127 alone: it is [str.lower]
    on texts whose cased letters are ASCII, as the triggers of the handlers
    are. *)

From Stdlib Require Import String Ascii List Bool Arith Lia DecimalString.
Import ListNotations.
Open Scope list_scope.
Open Scope string_scope.

(** ** Python exceptions and results *)

Inductive exn : Type :=
| ValueError
| AttributeError.

Inductive result (A : Type) : Type :=
| Ok (a : A)
| Raise (e : exn).

Arguments Ok {A} a.
Arguments Raise {A} e.

Definition is_ok {A} (r : result A) : bool :=
  match r with Ok _ => true | Raise _ => false end.

(** ** The [str] methods the handlers use *)

Module PyStr.

(** [s.startswith(p)] *)
Definition startswith (s p : string) : bool := String.prefix p s.

Definition is_upper (c : ascii) : bool :=
  Nat.leb 65 (nat_of_ascii c) && Nat.leb (nat_of_ascii c) 90.

Definition lower_char (c : ascii) : ascii :=
  if is_upper c then ascii_of_nat (nat_of_ascii c + 32) else c.

(** [s.lower()] on a text whose cased letters are ASCII: A to Z are
    folded, every other byte is kept. *)
Fixpoint lower (s : string) : string :=
  match s with
  | EmptyString => EmptyString
  | String c s' => String (lower_char c) (lower s')
  end.

(** The ASCII characters for which [str.isspace] holds: tab, line feed,
    vertical tab, form feed, carriage return, the four separators
    0x1c-0x1f and the space. *)
Definition isspace (c : ascii) : bool :=
  let n := nat_of_ascii c in
  (Nat.leb 9 n && Nat.leb n 13) || (Nat.leb 28 n && Nat.leb n 32).

(** The white-space characters of two bytes: U+0085 and U+00A0. *)
Definition space2 (c1 c2 : ascii) : bool :=
  let n2 := nat_of_ascii c2 in
  Nat.eqb (nat_of_ascii c1) 194 && (Nat.eqb n2 133 || Nat.eqb n2 160).

(** The white-space characters of three bytes: U+1680, U+2000 to U+200A,
    U+2028, U+2029, U+202F, U+205F and U+3000. *)
Definition space3 (c1 c2 c3 : ascii) : bool :=
  let n1 := nat_of_ascii c1 in
  let n2 := nat_of_ascii c2 in
  let n3 := nat_of_ascii c3 in
  (Nat.eqb n1 225 && Nat.eqb n2 154 && Nat.eqb n3 128)
  || (Nat.eqb n1 226 && Nat.eqb n2 128
      && ((Nat.leb 128 n3 && Nat.leb n3 138)
          || Nat.eqb n3 168 || Nat.eqb n3 169 || Nat.eqb n3 175))
  || (Nat.eqb n1 226 && Nat.eqb n2 129 && Nat.eqb n3 159)
  || (Nat.eqb n1 227 && Nat.eqb n2 128 && Nat.eqb n3 128).

(** The number of bytes of the white-space character the text begins
    with, 0 when it begins with none.  These are the characters for which
    [str.isspace] holds, the ones [str.strip] removes. *)
Definition space_width (s : string) : nat :=
  match s with
  | EmptyString => 0
  | String c1 s1 =>
      if isspace c1 then 1
      else match s1 with
           | EmptyString => 0
           | String c2 s2 =>
               if space2 c1 c2 then 2
               else match s2 with
                    | EmptyString => 0
                    | String c3 _ => if space3 c1 c2 c3 then 3 else 0
                    end
           end
  end.

(** The text is one white-space character. *)
Definition is_space_char (w : string) : bool :=
  negb (Nat.eqb (space_width w) 0) && Nat.eqb (String.length w) (space_width w).

(** The text is made of white-space characters only. *)
Fixpoint all_space (s : string) : bool :=
  match s with
  | EmptyString => true
  | String c1 s1 =>
      if isspace c1 then all_space s1
      else match s1 with
           | EmptyString => false
           | String c2 s2 =>
               if space2 c1 c2 then all_space s2
               else match s2 with
                    | EmptyString => false
                    | String c3 s3 => if space3 c1 c2 c3 then all_space s3 else false
                    end
           end
  end.

(** A white-space character occurs in the text. *)
Fixpoint has_space (s : string) : bool :=
  negb (Nat.eqb (space_width s) 0)
  || match s with
     | EmptyString => false
     | String _ s' => has_space s'
     end.

(** All the white-space characters, one after the other: U+0009 to
    U+000D, U+001C to U+0020, U+0085, U+00A0, U+1680, U+2000 to U+200A,
    U+2028, U+2029, U+202F, U+205F and U+3000. *)
Definition whitespace : string :=
  string_of_list_ascii
    (map ascii_of_nat
       [9; 10; 11; 12; 13; 28; 29; 30; 31; 32;
        194; 133; 194; 160; 225; 154; 128;
        226; 128; 128; 226; 128; 129; 226; 128; 130; 226; 128; 131;
        226; 128; 132; 226; 128; 133; 226; 128; 134; 226; 128; 135;
        226; 128; 136; 226; 128; 137; 226; 128; 138;
        226; 128; 168; 226; 128; 169; 226; 128; 175;
        226; 129; 159; 227; 128; 128]).

(** [s.lstrip()]: the leading white-space characters are removed. *)
Fixpoint lstrip (s : string) : string :=
  match s with
  | EmptyString => EmptyString
  | String c1 s1 =>
      if isspace c1 then lstrip s1
      else match s1 with
           | EmptyString => s
           | String c2 s2 =>
               if space2 c1 c2 then lstrip s2
               else match s2 with
                    | EmptyString => s
                    | String c3 s3 => if space3 c1 c2 c3 then lstrip s3 else s
                    end
           end
  end.

(** [s.rstrip()]: the text is cut where only white space follows. *)
Fixpoint rstrip (s : string) : string :=
  match s with
  | EmptyString => EmptyString
  | String c s' => if all_space s then EmptyString else String c (rstrip s')
  end.

(** [s.strip()] *)
Definition strip (s : string) : string := rstrip (lstrip s).

(** [s[:n]] and [s[n:]] for [0 <= n] *)
Fixpoint take (n : nat) (s : string) : string :=
  match n, s with
  | S n', String c s' => String c (take n' s')
  | _, _ => EmptyString
  end.

Fixpoint drop (n : nat) (s : string) : string :=
  match n, s with
  | S n', String _ s' => drop n' s'
  | _, _ => s
  end.

(** [s.index(c)] for a one-character [c]: the position of its first
    occurrence, [ValueError] when there is none. *)
Fixpoint find_char (c : ascii) (s : string) : option nat :=
  match s with
  | EmptyString => None
  | String d s' =>
      if Ascii.eqb d c then Some 0
      else option_map S (find_char c s')
  end.

Definition index (c : ascii) (s : string) : result nat :=
  match find_char c s with
  | Some i => Ok i
  | None => Raise ValueError
  end.

(** [c in s] for a one-character [c] *)
Fixpoint contains_char (c : ascii) (s : string) : bool :=
  match s with
  | EmptyString => false
  | String d s' => Ascii.eqb d c || contains_char c s'
  end.

(** [sub in s] *)
Fixpoint contains (sub s : string) : bool :=
  String.prefix sub s ||
  match s with
  | EmptyString => false
  | String _ s' => contains sub s'
  end.

(** [s.replace(old, '', 1)]: the first occurrence of [old] is removed. *)
Fixpoint remove_first (old s : string) : string :=
  if String.prefix old s then drop (String.length old) s
  else match s with
       | EmptyString => EmptyString
       | String c s' => String c (remove_first old s')
       end.

(** [s.split(sep)] for a one-character [sep]; never the empty list. *)
Fixpoint split (sep : ascii) (s : string) : list string :=
  match s with
  | EmptyString => [EmptyString]
  | String c s' =>
      if Ascii.eqb c sep then EmptyString :: split sep s'
      else match split sep s' with
           | [] => [String c EmptyString]
           | w :: ws => String c w :: ws
           end
  end.

(** [sep.join(l)] *)
Fixpoint join (sep : string) (l : list string) : string :=
  match l with
  | [] => EmptyString
  | [x] => x
  | x :: l' => x ++ sep ++ join sep l'
  end.

(** Truth value of a [str]: non-empty. *)
Definition truthy (s : string) : bool :=
  match s with EmptyString => false | _ => true end.

(** [any(l)] over a list of [str] *)
Definition any (l : list string) : bool := existsb truthy l.

(** ["%s" % n] for a non-negative [int] *)
Definition of_nat (n : nat) : string :=
  NilZero.string_of_uint (Nat.to_uint n).

End PyStr.

(** [s[a:-1]]: from position [a] up to, not including, the last character,
    counted in bytes; the mentions [split_by_first_mention] returns start
    with "<@" and end with ">", one byte each. *)
Definition slice_but_last (a : nat) (s : string) : string :=
  PyStr.drop a (PyStr.take (String.length s - 1) s).

(** ** State and exceptions

    A handler reads and updates the roster store and may raise: a
    computation takes the store and either returns a value with the new
    store or raises.  The store after an exception is not observed by any
    handler and is not kept. *)

Definition M (S A : Type) : Type := S -> result (A * S).

Definition ret {S A} (a : A) : M S A := fun s => Ok (a, s).

Definition bind {S A B} (c : M S A) (k : A -> M S B) : M S B :=
  fun s => match c s with
           | Ok (a, s') => k a s'
           | Raise e => Raise e
           end.

Definition raise {S A} (e : exn) : M S A := fun _ => Raise e.

Definition gets {S A} (f : S -> A) : M S A := fun s => Ok (f s, s).

Definition modify {S} (f : S -> S) : M S unit := fun s => Ok (tt, f s).

Declare Scope monad_scope.
Delimit Scope monad_scope with monad.
Notation "x <- c ;; k" := (bind c (fun x => k))
  (at level 61, c at next level, right associativity) : monad_scope.
Notation "c ;;; k" := (bind c (fun _ => k))
  (at level 61, right associativity) : monad_scope.
Open Scope monad_scope.

(** ** Data model *)

Module Player.
Record t : Type := mk { id : nat; display_name : string }.
End Player.

Module Game.
(** Modelled from the spec: the [Game] class of the absent [game] module,
    with its canonical name, its aliases and the number of players that make
    it ready. *)
Record t : Type := mk { name : string; aliases : list string; min_players : nat }.

Definition eq_dec (g1 g2 : t) : {g1 = g2} + {g1 <> g2}.
Proof.
  decide equality;
    [ apply Nat.eq_dec | apply (list_eq_dec string_dec) | apply string_dec ].
Defined.

(** Modelled from the spec: [str(game)], the canonical name (the scenario
    of the spec answers "would play Chess" for the game named Chess). *)
Definition str (g : t) : string := name g.
End Game.

Module WouldPlay.
Record t : Type := mk { user : Player.t; game : Game.t }.
End WouldPlay.

Module Message.
Record t : Type := mk { content : string; clean_content : string; author : Player.t }.
End Message.

(** Modelled from the spec: [str(would_play.user)], the display name of the
    player. *)
Definition user_str (p : Player.t) : string := Player.display_name p.

(** ** The collaborators of [handlers.py]

    [db] and the roster methods of [Game] live in modules that are not part
    of this development; the handlers are embedded over their interface.
    The operations are taken to return: the two updates of [db] that the
    handlers call for their effect give the new store, [record_would_play]
    gives the record with it, and the queries read the store. *)

Class RosterStore (DB : Type) : Type := {
  (* db *)
  record_would_play : Player.t -> Game.t -> DB -> WouldPlay.t * DB;
  get_last_would_play : option Game.t -> DB -> option WouldPlay.t;
  get_last_would_plays_at_same_time : DB -> list WouldPlay.t;
  clear_game : Game.t -> DB -> DB;
  cancel_would_plays : Player.t -> DB -> DB;
  (* Game *)
  get_available_players : Game.t -> DB -> list Player.t;
  is_ready_to_play : Game.t -> DB -> bool;
  get_ready_messages : Game.t -> DB -> list string;
  get_players_for_next_game : Game.t -> DB -> list Player.t
}.

(** The names [handlers.py] imports or reads from its environment:
    [CLIENT_ID] ([os.getenv] gives [None] when the variable is unset),
    [games] and [lookup_game_by_name_or_alias] of the [game] module,
    [extract_remainder_after_fragments] of [utils], the [str] of a
    [getattr] on a game or on [None], and the order in which a [set] built
    from a list of games is iterated. *)
Class Env : Type := {
  CLIENT_ID : option string;
  games : list Game.t;
  lookup_game_by_name_or_alias : string -> option Game.t;
  extract_remainder_after_fragments : list string -> string -> string;
  getattr_str : option Game.t -> string -> result string;
  set_iter : list Game.t -> list Game.t;
  set_iter_NoDup : forall l, NoDup (set_iter l);
  set_iter_In : forall l g, In g (set_iter l) <-> In g l
}.

(** ** Module-level functions of [handlers.py] *)

Definition create_mention (player : Player.t) : string :=
  "<@!" ++ PyStr.of_nat (Player.id player) ++ ">".

Definition get_any_ready_messages {DB} {R : RosterStore DB} (game : Game.t) : M DB (list string) :=
  gets (fun db => if is_ready_to_play game db then get_ready_messages game db else []).

Definition split_by_first_mention (message : Message.t) : result (string * string) :=
  let msg := Message.content message in
  if PyStr.startswith msg "<@" then
    match PyStr.index ">" msg with
    | Ok i => let idx := i + 1 in
              Ok (PyStr.take idx msg, PyStr.strip (PyStr.drop idx msg))
    | Raise e => Raise e
    end
  else Ok ("", msg).

Definition is_bot_mention {E : Env} (mention : string) : bool :=
  let inner := slice_but_last (if PyStr.startswith mention "<@!" then 3 else 2) mention in
  match CLIENT_ID with
  | Some client_id => String.eqb inner client_id
  | None => false
  end.

(** ** [GameExtractionMixin]

    The mixin reads [self.fragments] and calls [self.get_all_responses_with_game]
    and [self.get_all_responses_without_game]; a handler that mixes it in is
    the record of the three. *)

Module GameExtractionMixin.

Record t (DB : Type) : Type := mk {
  fragments : list string;
  get_all_responses_with_game : Message.t -> option Game.t -> M DB (list string);
  get_all_responses_without_game : Message.t -> M DB (list string)
}.
Arguments mk {DB}.
Arguments fragments {DB}.
Arguments get_all_responses_with_game {DB}.
Arguments get_all_responses_without_game {DB}.

Definition multi_game_delimiter : ascii := "/"%char.

(** The default [get_all_responses_without_game] of the mixin. *)
Definition default_without_game {DB} (message : Message.t) : M DB (list string) :=
  ret [].

(** The [for game_name in game_names] loop of [get_all_responses], with the
    list [responses] it extends. *)
Fixpoint for_game_names {E : Env} {DB} (self : t DB) (message : Message.t)
  (game_names : list string) (responses : list string) : M DB (list string) :=
  match game_names with
  | [] => ret responses
  | game_name :: rest =>
      if PyStr.truthy game_name then
        let game := lookup_game_by_name_or_alias game_name in
        r <- get_all_responses_with_game self message game ;;
        for_game_names self message rest (app responses r)
      else for_game_names self message rest responses
  end.

(** The body of [get_all_responses] after [plays] has been extracted. *)
Definition responses_of_plays {E : Env} {DB} (self : t DB) (message : Message.t)
  (plays : string) : M DB (list string) :=
  let responses := [] in
  let game_names := PyStr.split multi_game_delimiter plays in
  if PyStr.any game_names then
    for_game_names self message game_names responses
  else
    r <- get_all_responses_without_game self message ;;
    ret (app responses r).

Definition get_all_responses {E : Env} {DB} (self : t DB) (message : Message.t)
  : M DB (list string) :=
  let plays := extract_remainder_after_fragments (fragments self) (Message.content message) in
  responses_of_plays self message plays.

End GameExtractionMixin.

(** ** [ContentBasedHandler] and [MentionMessageHandler] *)

Module ContentBasedHandler.

Definition should_handle (fragments : list string) (message : Message.t) : bool :=
  existsb (fun f => PyStr.startswith (PyStr.lower (Message.content message)) (PyStr.lower f))
          fragments.

End ContentBasedHandler.

Module MentionMessageHandler.

Definition should_handle {E : Env} (keywords : list string) (message : Message.t) : result bool :=
  match split_by_first_mention message with
  | Ok (mention, remainder) =>
      Ok (is_bot_mention mention &&
          existsb (fun kw => PyStr.startswith (PyStr.lower remainder) (PyStr.lower kw)) keywords)
  | Raise e => Raise e
  end.

Fixpoint split_string_by_keywords (keywords : list string) (string : string)
  : option String.string * String.string :=
  match keywords with
  | [] => (None, string)
  | keyword :: rest =>
      let kw_removed_string := PyStr.remove_first keyword string in
      if negb (String.eqb kw_removed_string string) then
        (Some keyword, PyStr.strip kw_removed_string)
      else split_string_by_keywords rest string
  end.

End MentionMessageHandler.

(** ** The handlers *)

Module WouldPlayHandler.

Definition fragments : list string :=
  ["I'd play"; "id play"; "I'd paly"; "id paly";
   "I’d play"; "I’d paly"; "I’dplay"; "I’dpaly"].

(** With [game = None] the evaluation of the response reaches
    [None.get_available_players()], an [AttributeError]; what
    [db.record_would_play] did with [None] before that is not observed. *)
Definition would_play_line (user : Player.t) (game : Game.t) (n : nat) : string :=
  user_str user ++ " would play " ++ Game.str game
  ++ " (that's " ++ PyStr.of_nat n ++ ")".

Definition get_all_responses_with_game {DB} {R : RosterStore DB}
  (message : Message.t) (game : option Game.t) : M DB (list string) :=
  match game with
  | None => raise AttributeError
  | Some game =>
      would_play <- (fun db => Ok (record_would_play (Message.author message) game db)) ;;
      players <- gets (get_available_players game) ;;
      ready <- get_any_ready_messages game ;;
      ret (app [would_play_line (WouldPlay.user would_play) game (List.length players)] ready)
  end.

Definition mixin {DB} {R : RosterStore DB} : GameExtractionMixin.t DB :=
  GameExtractionMixin.mk fragments get_all_responses_with_game
    GameExtractionMixin.default_without_game.

Definition should_handle (message : Message.t) : bool :=
  ContentBasedHandler.should_handle fragments message.

Definition get_all_responses {E : Env} {DB} {R : RosterStore DB} (message : Message.t)
  : M DB (list string) :=
  GameExtractionMixin.get_all_responses mixin message.

End WouldPlayHandler.

Module SameHandler.

Definition fragments : list string := ["same to"; "same"].

Definition would_also_play (user : Player.t) (game : Game.t) (n : nat) : string :=
  user_str user ++ " would also play " ++ Game.str game
  ++ " (that's " ++ PyStr.of_nat n ++ ")".

(** First loop of [get_all_responses_without_game]: record and announce. *)
Fixpoint record_each {DB} {R : RosterStore DB} (message : Message.t)
  (games : list Game.t) (messages : list string) : M DB (list string) :=
  match games with
  | [] => ret messages
  | game :: rest =>
      would_play <- (fun db => Ok (record_would_play (Message.author message) game db)) ;;
      players <- gets (get_available_players game) ;;
      record_each message rest
        (app messages [would_also_play (WouldPlay.user would_play) game (List.length players)])
  end.

(** Second loop: the readiness messages. *)
Fixpoint ready_each {DB} {R : RosterStore DB} (games : list Game.t)
  (messages : list string) : M DB (list string) :=
  match games with
  | [] => ret messages
  | game :: rest =>
      r <- get_any_ready_messages game ;;
      ready_each rest (app messages r)
  end.

Definition get_all_responses_without_game {E : Env} {DB} {R : RosterStore DB}
  (message : Message.t) : M DB (list string) :=
  last_would_plays <- gets get_last_would_plays_at_same_time ;;
  match last_would_plays with
  | [] => ret []
  | _ =>
      let messages := [] in
      let games := set_iter (map WouldPlay.game last_would_plays) in
      messages <- record_each message games messages ;;
      ready_each games messages
  end.

Definition get_all_responses_with_optional_game {DB} {R : RosterStore DB}
  (message : Message.t) (game : option Game.t) : M DB (list string) :=
  last_would_play <- gets (get_last_would_play game) ;;
  match last_would_play with
  | None => ret []
  | Some last_would_play =>
      let game := match game with
                  | Some g => g
                  | None => WouldPlay.game last_would_play
                  end in
      would_play <- (fun db => Ok (record_would_play (Message.author message) game db)) ;;
      players <- gets (get_available_players game) ;;
      ready <- get_any_ready_messages game ;;
      ret (app [would_also_play (WouldPlay.user would_play) game (List.length players)] ready)
  end.

Definition get_all_responses_with_game {DB} {R : RosterStore DB}
  (message : Message.t) (game : option Game.t) : M DB (list string) :=
  get_all_responses_with_optional_game message game.

Definition mixin {E : Env} {DB} {R : RosterStore DB} : GameExtractionMixin.t DB :=
  GameExtractionMixin.mk fragments get_all_responses_with_game
    get_all_responses_without_game.

Definition should_handle (message : Message.t) : bool :=
  ContentBasedHandler.should_handle fragments message.

Definition get_all_responses {E : Env} {DB} {R : RosterStore DB} (message : Message.t)
  : M DB (list string) :=
  GameExtractionMixin.get_all_responses mixin message.

End SameHandler.

Module StatusHandler.

Definition keywords : list string := ["status"].

Definition newline : string := String (ascii_of_nat 10) EmptyString.

Definition has_line (game : Game.t) (n : nat) : string :=
  Game.str game ++ " has " ++ PyStr.of_nat n.

(** The [for game in games] loop with its two lists. *)
Fixpoint for_games {DB} {R : RosterStore DB} (gs : list Game.t)
  (messages ready_messages : list string) : M DB (list string * list string) :=
  match gs with
  | [] => ret (messages, ready_messages)
  | game :: rest =>
      players <- gets (get_available_players game) ;;
      match players with
      | [] => for_games rest messages ready_messages
      | _ =>
          r <- get_any_ready_messages game ;;
          for_games rest (app messages [has_line game (List.length players)])
                    (app ready_messages r)
      end
  end.

Definition get_all_responses {E : Env} {DB} {R : RosterStore DB} (message : Message.t)
  : M DB (list string) :=
  let messages := ["Bot alive"] in
  let ready_messages := [] in
  lists <- for_games games messages ready_messages ;;
  let '(messages, ready_messages) := lists in
  ret [PyStr.join newline (app messages ready_messages)].

Definition should_handle {E : Env} (message : Message.t) : result bool :=
  MentionMessageHandler.should_handle keywords message.

End StatusHandler.

Module ClearHandler.

Definition keywords : list string := ["clear"].

(** [if game:] separates [None] from a game object, which is truthy. *)
Definition get_all_responses_with_game {DB} {R : RosterStore DB}
  (message : Message.t) (game : option Game.t) : M DB (list string) :=
  match game with
  | Some game =>
      modify (clear_game game) ;;;
      ret ["Cleared " ++ Game.str game]
  | None => ret ["No game specified!"]
  end.

(** [self.fragments = self.keywords]; [get_all_responses_without_game] is
    the one inherited from the mixin. *)
Definition mixin {DB} {R : RosterStore DB} : GameExtractionMixin.t DB :=
  GameExtractionMixin.mk keywords get_all_responses_with_game
    GameExtractionMixin.default_without_game.

Definition should_handle {E : Env} (message : Message.t) : result bool :=
  MentionMessageHandler.should_handle keywords message.

Definition get_all_responses {E : Env} {DB} {R : RosterStore DB} (message : Message.t)
  : M DB (list string) :=
  GameExtractionMixin.get_all_responses mixin message.

End ClearHandler.

Module CancelHandler.

Definition keywords : list string := ["cancel"].

Definition get_all_responses {DB} {R : RosterStore DB} (message : Message.t)
  : M DB (list string) :=
  modify (cancel_would_plays (Message.author message)) ;;;
  ret ["Cancelled all play requests from "
       ++ Player.display_name (Message.author message)].

Definition should_handle {E : Env} (message : Message.t) : result bool :=
  MentionMessageHandler.should_handle keywords message.

End CancelHandler.

Module PingHandler.

Definition keywords : list string := ["ping"; "p"].

(** With [game = None] the first statement is
    [None.get_players_for_next_game()], an [AttributeError]. *)
Definition get_all_responses_with_game {DB} {R : RosterStore DB}
  (message : Message.t) (game : option Game.t) : M DB (list string) :=
  match game with
  | None => raise AttributeError
  | Some game =>
      players <- gets (get_players_for_next_game game) ;;
      modify (clear_game game) ;;;
      ret [PyStr.join "," (map create_mention players)
           ++ " - ready to play " ++ Game.str game ++ "."]
  end.

Definition mixin {DB} {R : RosterStore DB} : GameExtractionMixin.t DB :=
  GameExtractionMixin.mk keywords get_all_responses_with_game
    GameExtractionMixin.default_without_game.

Definition should_handle {E : Env} (message : Message.t) : result bool :=
  MentionMessageHandler.should_handle keywords message.

Definition get_all_responses {E : Env} {DB} {R : RosterStore DB} (message : Message.t)
  : M DB (list string) :=
  GameExtractionMixin.get_all_responses mixin message.

End PingHandler.

Module AccidentalRoleMentionHandler.

Definition should_handle (message : Message.t) : bool :=
  PyStr.contains "Play Register" (Message.clean_content message)
  && PyStr.contains "<@&" (Message.content message).

Definition get_all_responses {DB} (message : Message.t) : M DB (list string) :=
  ret ["It looks like you tried to @ me but might have accidentally selected the role instead"].

End AccidentalRoleMentionHandler.

Module QueryGameHandler.

Definition keywords : list string := ["query games"].

Definition get_all_responses {E : Env} {DB} (message : Message.t) : M DB (list string) :=
  ret [PyStr.join StatusHandler.newline (map Game.name games)].

Definition should_handle {E : Env} (message : Message.t) : result bool :=
  MentionMessageHandler.should_handle keywords message.

End QueryGameHandler.

Module QueryPropertyHandler.

Definition keywords : list string := ["query"].

(** [attribute, game_name = remainder.split(' ')[:2]]: the unpacking needs
    exactly two values, and the slice has at most two. *)
Definition unpack2 (l : list string) : result (string * string) :=
  match l with
  | [a; b] => Ok (a, b)
  | _ => Raise ValueError
  end.

(** The first three statements of [get_all_responses]: the attribute name
    and the game name it reads from the message. *)
Definition parse (message : Message.t) : result (string * string) :=
  match split_by_first_mention message with
  | Raise e => Raise e
  | Ok (mention, remainder) =>
      let '(found_keyword, remainder) :=
        MentionMessageHandler.split_string_by_keywords keywords remainder in
      unpack2 (firstn 2 (PyStr.split " " remainder))
  end.

(** [display_function(getattr(game, attribute))]: the [aliases] of a game
    are joined with commas, any other attribute goes through [str]. *)
Definition display {E : Env} (attribute : string) (game : option Game.t) : result string :=
  if String.eqb attribute "aliases" then
    match game with
    | Some g => Ok (PyStr.join ", " (Game.aliases g))
    | None => Raise AttributeError
    end
  else getattr_str game attribute.

Definition get_all_responses {E : Env} {DB} (message : Message.t) : M DB (list string) :=
  fun db =>
    match parse message with
    | Raise e => Raise e
    | Ok (attribute, game_name) =>
        let game := lookup_game_by_name_or_alias game_name in
        match display attribute game with
        | Raise e => Raise e
        | Ok shown => Ok ([attribute ++ ": " ++ shown], db)
        end
    end.

Definition should_handle {E : Env} (message : Message.t) : result bool :=
  MentionMessageHandler.should_handle keywords message.

End QueryPropertyHandler.

(** ** The spec's wording of the composite behaviours

    The definitions below follow the specification's sentences; the theorems
    compare them with the loops above. *)

Module Spec.

(** "invoke a per-game response generator once per candidate, concatenating
    all results": the generator runs on each game in turn, left to right. *)
Fixpoint for_each_game {DB} (generator : option Game.t -> M DB (list string))
  (candidates : list (option Game.t)) : M DB (list string) :=
  match candidates with
  | [] => ret []
  | game :: rest =>
      r <- generator game ;;
      rs <- for_each_game generator rest ;;
      ret (app r rs)
  end.

(** The candidate game names of a remainder: the non-empty pieces between
    the delimiters. *)
Definition candidates (plays : string) : list string :=
  filter PyStr.truthy (PyStr.split GameExtractionMixin.multi_game_delimiter plays).

(** "records intent for every such game, announces each": the store after
    the intents and the announcements, in the order of the games. *)
Fixpoint record_and_announce {DB} {R : RosterStore DB} (author : Player.t)
  (games : list Game.t) (db : DB) : list string * DB :=
  match games with
  | [] => ([], db)
  | game :: rest =>
      let '(would_play, db1) := record_would_play author game db in
      let line := SameHandler.would_also_play (WouldPlay.user would_play) game
                    (List.length (get_available_players game db1)) in
      let '(lines, db2) := record_and_announce author rest db1 in
      (line :: lines, db2)
  end.

(** "readiness messages for all affected games", read in one store. *)
Definition readiness {DB} {R : RosterStore DB} (games : list Game.t) (db : DB) : list string :=
  flat_map (fun game => if is_ready_to_play game db then get_ready_messages game db else [])
           games.

(** "every catalog game with at least one currently available player" *)
Definition active_games {E : Env} {DB} {R : RosterStore DB} (db : DB) : list Game.t :=
  filter (fun game => negb (Nat.eqb (List.length (get_available_players game db)) 0)) games.

(** The lines of the status reply. *)
Definition status_lines {E : Env} {DB} {R : RosterStore DB} (db : DB) : list string :=
  app ("Bot alive"
        :: map (fun game => StatusHandler.has_line game
                              (List.length (get_available_players game db)))
               (active_games db))
      (readiness (active_games db) db).

End Spec.

(** ** A model of the absent modules, from the specification *)

Module SpecModel.

(** Modelled from the spec: [extract_remainder_after_fragments] of the
    absent [utils] module, "finds whichever fragment the content starts with
    (case-insensitive) and returns the content with that fragment removed
    and trimmed; if none match, returns the content unchanged". *)
Fixpoint extract_remainder_after_fragments (fragments : list string) (content : string)
  : string :=
  match fragments with
  | [] => content
  | fragment :: rest =>
      if PyStr.startswith (PyStr.lower content) (PyStr.lower fragment) then
        PyStr.strip (PyStr.drop (String.length fragment) content)
      else extract_remainder_after_fragments rest content
  end.

Definition name_matches (name : string) (game : Game.t) : bool :=
  String.eqb (PyStr.lower (Game.name game)) (PyStr.lower name).

Definition alias_matches (name : string) (game : Game.t) : bool :=
  existsb (fun alias => String.eqb (PyStr.lower alias) (PyStr.lower name))
          (Game.aliases game).

(** Modelled from the spec: [lookup_game_by_name_or_alias] of the absent
    [game] module, "case-insensitive match against canonical name first,
    then against any alias of any catalog game"; unknown input yields
    no game. *)
Definition lookup_game_by_name_or_alias (games : list Game.t) (name : string)
  : option Game.t :=
  match find (name_matches name) games with
  | Some game => Some game
  | None => find (alias_matches name) games
  end.

(** Modelled from the spec: the attributes a catalog game exposes by name,
    rendered with [str]; [None] has none of them. *)
Definition getattr_str (game : option Game.t) (attribute : string) : result string :=
  match game with
  | Some g =>
      if String.eqb attribute "name" then Ok (Game.name g)
      else if String.eqb attribute "min_players" then Ok (PyStr.of_nat (Game.min_players g))
      else Raise AttributeError
  | None => Raise AttributeError
  end.

(** A catalog for the scenarios of the specification. *)
Definition Chess : Game.t := Game.mk "Chess" ["chess"] 2.
Definition Go : Game.t := Game.mk "Go" ["go"; "baduk"] 2.

Definition catalog : list Game.t := [Chess; Go].

#[export] Instance env : Env :=
  Build_Env (Some "42") catalog (lookup_game_by_name_or_alias catalog)
    extract_remainder_after_fragments getattr_str
    (nodup Game.eq_dec) (NoDup_nodup Game.eq_dec)
    (fun l g => nodup_In Game.eq_dec l g).

(** Modelled from the spec: the roster store of the absent [db] module and
    the roster methods of [Game].  A record is a would-play with the instant
    it was made at; the oldest comes first. *)
Record Roster : Type := mkRoster {
  now : nat;
  records : list (nat * WouldPlay.t)
}.

Definition same_game (g1 g2 : Game.t) : bool := String.eqb (Game.name g1) (Game.name g2).

Definition same_player (p1 p2 : Player.t) : bool := Nat.eqb (Player.id p1) (Player.id p2).

(** The next message arrives at a later instant. *)
Definition tick (db : Roster) : Roster := mkRoster (S (now db)) (records db).

Definition record_would_play (player : Player.t) (game : Game.t) (db : Roster)
  : WouldPlay.t * Roster :=
  let would_play := WouldPlay.mk player game in
  (would_play, mkRoster (now db) (app (records db) [(now db, would_play)])).

Definition get_last_would_play (game : option Game.t) (db : Roster) : option WouldPlay.t :=
  let wanted (r : nat * WouldPlay.t) :=
    match game with
    | Some g => same_game g (WouldPlay.game (snd r))
    | None => true
    end in
  option_map snd (find wanted (rev (records db))).

Definition get_last_would_plays_at_same_time (db : Roster) : list WouldPlay.t :=
  match rev (records db) with
  | [] => []
  | (t, _) :: _ => map snd (filter (fun r => Nat.eqb (fst r) t) (records db))
  end.

Definition clear_game (game : Game.t) (db : Roster) : Roster :=
  mkRoster (now db)
    (filter (fun r => negb (same_game game (WouldPlay.game (snd r)))) (records db)).

Definition cancel_would_plays (player : Player.t) (db : Roster) : Roster :=
  mkRoster (now db)
    (filter (fun r => negb (same_player player (WouldPlay.user (snd r)))) (records db)).

(** A player appears at most once in a game's roster. *)
Fixpoint distinct_players (l : list Player.t) : list Player.t :=
  match l with
  | [] => []
  | p :: l' => p :: filter (fun q => negb (same_player p q)) (distinct_players l')
  end.

Definition get_available_players (game : Game.t) (db : Roster) : list Player.t :=
  distinct_players
    (map (fun r => WouldPlay.user (snd r))
         (filter (fun r => same_game game (WouldPlay.game (snd r))) (records db))).

Definition is_ready_to_play (game : Game.t) (db : Roster) : bool :=
  Nat.leb (Game.min_players game) (List.length (get_available_players game db)).

(** The wording of the announcement is the store's own. *)
Definition get_ready_messages (game : Game.t) (db : Roster) : list string :=
  [PyStr.join "," (map create_mention (get_available_players game db))
   ++ " are ready to play " ++ Game.str game ++ "!"].

#[export] Instance roster : RosterStore Roster :=
  Build_RosterStore Roster
    record_would_play get_last_would_play get_last_would_plays_at_same_time
    clear_game cancel_would_plays
    get_available_players is_ready_to_play get_ready_messages
    get_available_players.

Definition empty : Roster := mkRoster 0 [].

Definition alice : Player.t := Player.mk 1 "Alice".
Definition bob : Player.t := Player.mk 2 "Bob".

Definition msg (author : Player.t) (content : string) : Message.t :=
  Message.mk content content author.

End SpecModel.

(** ** Observation of a run *)

(** The responses of a run that returned. *)
Definition responses_of {DB} (r : result (list string * DB)) : option (list string) :=
  match r with
  | Ok (responses, _) => Some responses
  | Raise _ => None
  end.

(** The environment with another catalog lookup. *)
Definition with_lookup (E : Env) (lookup : string -> option Game.t) : Env :=
  Build_Env (@CLIENT_ID E) (@games E) lookup
    (@extract_remainder_after_fragments E) (@getattr_str E)
    (@set_iter E) (@set_iter_NoDup E) (@set_iter_In E).

(** A handler that also keeps the list of the games its per-game generator
    was called with, in the order of the calls. *)
Definition logged {DB} (self : GameExtractionMixin.t DB)
  : GameExtractionMixin.t (DB * list (option Game.t)) :=
  GameExtractionMixin.mk
    (GameExtractionMixin.fragments self)
    (fun message game st =>
       match GameExtractionMixin.get_all_responses_with_game self message game (fst st) with
       | Ok (r, db') => Ok (r, (db', app (snd st) [game]))
       | Raise e => Raise e
       end)
    (fun message st =>
       match GameExtractionMixin.get_all_responses_without_game self message (fst st) with
       | Ok (r, db') => Ok (r, (db', snd st))
       | Raise e => Raise e
       end).

(** ** Readings of the handlers' results *)

Module Answers.

(** The games among the results of a lookup. *)
Definition resolved (games : list (option Game.t)) : list Game.t :=
  flat_map (fun game => match game with Some g => [g] | None => [] end) games.

Definition is_resolved (game : option Game.t) : bool :=
  match game with Some _ => true | None => false end.

(** The answer of Clear for one looked-up name. *)
Definition clear_answer (game : option Game.t) : string :=
  match game with
  | Some g => "Cleared " ++ Game.str g
  | None => "No game specified!"
  end.

(** The looked-up candidates of the message, for a handler's fragments. *)
Definition looked_up {E : Env} (fragments : list string) (message : Message.t)
  : list (option Game.t) :=
  map lookup_game_by_name_or_alias
      (Spec.candidates
         (extract_remainder_after_fragments fragments (Message.content message))).

End Answers.

(** ** Triggers *)

Module Triggers.

(** No trigger of one list is, in lower case, a prefix of a trigger of the
    other. *)
Definition incomparable (triggers1 triggers2 : list string) : bool :=
  forallb
    (fun t1 =>
       forallb
         (fun t2 =>
            negb (String.prefix (PyStr.lower t1) (PyStr.lower t2))
            && negb (String.prefix (PyStr.lower t2) (PyStr.lower t1)))
         triggers2)
    triggers1.

(** Every list of a family is incomparable with the ones after it. *)
Fixpoint pairwise_incomparable (family : list (list string)) : bool :=
  match family with
  | [] => true
  | triggers :: rest =>
      forallb (incomparable triggers) rest && pairwise_incomparable rest
  end.

(** The keywords of the command handlers that answer to a mention of the
    bot, QueryGames aside. *)
Definition commands : list (list string) :=
  [StatusHandler.keywords; ClearHandler.keywords; CancelHandler.keywords;
   PingHandler.keywords; QueryPropertyHandler.keywords].

End Triggers.

(** * Properties *)

(** ** Strings *)

Module PyStrFacts.
Import PyStr.

Lemma take_drop (n : nat) (s : string) : take n s ++ drop n s = s.
Proof.
  revert s; induction n as [|n IH]; intros [|c s]; simpl; try reflexivity.
  now rewrite IH.
Qed.

Lemma find_char_None (c : ascii) (s : string) :
  find_char c s = None <-> contains_char c s = false.
Proof.
  induction s as [|d s IH]; simpl.
  - tauto.
  - destruct (Ascii.eqb d c); simpl.
    + split; discriminate.
    + destruct (find_char c s); simpl.
      * split; [discriminate|]. intros E. apply IH in E. discriminate.
      * split; [intros _; now apply IH | reflexivity].
Qed.

Lemma find_char_Some (c : ascii) (s : string) (i : nat) :
  find_char c s = Some i ->
  exists rest, s = take i s ++ String c rest
               /\ contains_char c (take i s) = false
               /\ drop (i + 1) s = rest.
Proof.
  revert i; induction s as [|d s IH]; simpl; intros i E.
  - discriminate.
  - destruct (Ascii.eqb d c) eqn:Edc.
    + injection E as <-. apply Ascii.eqb_eq in Edc; subst d.
      exists s; simpl; auto.
    + destruct (find_char c s) as [j|] eqn:Ej; simpl in E; try discriminate.
      injection E as <-.
      destruct (IH j eq_refl) as (rest & Hs & Hc & Hd).
      exists rest; simpl; rewrite Edc; simpl.
      repeat split; auto. now rewrite <- Hs.
Qed.

Lemma take_app_exact (a b : string) : take (String.length a) (a ++ b) = a.
Proof. induction a as [|c a IH]; simpl; [now destruct b | now rewrite IH]. Qed.

Lemma append_assoc (a b c : string) : (a ++ b) ++ c = a ++ (b ++ c).
Proof. induction a as [|x a IH]; simpl; [reflexivity | now rewrite IH]. Qed.

Lemma length_append (a b : string) :
  String.length (a ++ b) = String.length a + String.length b.
Proof. induction a as [|x a IH]; simpl; [reflexivity | now rewrite IH]. Qed.

Lemma split_not_nil (sep : ascii) (s : string) : split sep s <> [].
Proof.
  destruct s as [|c s]; simpl; [discriminate|].
  destruct (Ascii.eqb c sep); [discriminate|].
  destruct (split sep s); discriminate.
Qed.

(** Joining the pieces of a split with the separator gives the text back. *)
Lemma join_split (sep : ascii) (s : string) :
  join (String sep EmptyString) (split sep s) = s.
Proof.
  induction s as [|c s IH]; [reflexivity|].
  cbn [split]. destruct (Ascii.eqb c sep) eqn:Hc.
  - apply Ascii.eqb_eq in Hc; subst c.
    destruct (split sep s) as [|w ws] eqn:Hs; [now apply split_not_nil in Hs|].
    change (join (String sep "") ("" :: w :: ws))
      with (String sep (join (String sep "") (w :: ws))).
    now rewrite IH.
  - destruct (split sep s) as [|w ws] eqn:Hs; [now apply split_not_nil in Hs|].
    destruct ws as [|w' ws].
    + simpl in *. now rewrite IH.
    + change (join (String sep "") (String c w :: w' :: ws))
        with (String c (join (String sep "") (w :: w' :: ws))).
      now rewrite IH.
Qed.

End PyStrFacts.

(** ** White space and [strip] *)

Module StripFacts.
Import PyStr.

(** What a white-space character in front of a text does. *)
Lemma space_char_front (w x : string) :
  is_space_char w = true ->
  space_width (w ++ x) = String.length w
  /\ w <> ""
  /\ lstrip (w ++ x) = lstrip x
  /\ all_space (w ++ x) = all_space x.
Proof.
  unfold is_space_char. intros H. apply andb_prop in H as [Hw Hl].
  apply negb_true_iff, Nat.eqb_neq in Hw. apply Nat.eqb_eq in Hl.
  destruct w as [|c1 [|c2 [|c3 [|c4 w]]]];
    cbn [space_width String.length append lstrip all_space] in *;
    try congruence;
    destruct (isspace c1); try (repeat split; congruence);
    try (destruct (space2 c1 c2)); try (repeat split; congruence);
    try (destruct (space3 c1 c2 c3)); try (repeat split; congruence).
Qed.

(** A text begins with a white-space character, which [lstrip] and
    [all_space] pass over, or with none, and then they stop. *)
Lemma space_view (s : string) :
  (space_width s = 0 /\ lstrip s = s /\ (s <> "" -> all_space s = false))
  \/ (exists w r, s = w ++ r /\ is_space_char w = true).
Proof.
  destruct s as [|c1 s1]; [left; repeat split; congruence|].
  destruct (isspace c1) eqn:H1.
  { right. exists (String c1 ""), s1. split; [reflexivity|].
    unfold is_space_char. cbn [space_width String.length]. now rewrite H1. }
  destruct s1 as [|c2 s2].
  { left. cbn [space_width lstrip all_space]. rewrite H1. repeat split. }
  destruct (space2 c1 c2) eqn:H2.
  { right. exists (String c1 (String c2 "")), s2. split; [reflexivity|].
    unfold is_space_char. cbn [space_width String.length]. now rewrite H1, H2. }
  destruct s2 as [|c3 s3].
  { left. cbn [space_width lstrip all_space]. rewrite H1, H2. repeat split. }
  destruct (space3 c1 c2 c3) eqn:H3.
  { right. exists (String c1 (String c2 (String c3 ""))), s3. split; [reflexivity|].
    unfold is_space_char. cbn [space_width String.length]. now rewrite H1, H2, H3. }
  left. cbn [space_width lstrip all_space]. rewrite H1, H2, H3. repeat split.
Qed.

Lemma by_length (P : string -> Prop) :
  (forall s, (forall t, String.length t < String.length s -> P t) -> P s) ->
  forall s, P s.
Proof.
  intros Hstep s.
  assert (H : forall n t, String.length t < n -> P t).
  { induction n as [|n IH]; intros t Ht; [lia|].
    apply Hstep. intros u Hu. apply IH. lia. }
  apply (H (S (String.length s))). lia.
Qed.

Lemma length_front (w r : string) :
  w <> "" -> String.length r < String.length (w ++ r).
Proof.
  intros Hw. rewrite PyStrFacts.length_append.
  destruct w; [congruence | simpl; lia].
Qed.

(** [lstrip] removes white space only, and all of it. *)
Lemma lstrip_spec (s : string) :
  (exists ws, s = ws ++ lstrip s /\ all_space ws = true)
  /\ space_width (lstrip s) = 0.
Proof.
  induction s as [s IH] using by_length.
  destruct (space_view s) as [(Hw & Hl & _)|(w & r & -> & Hc)].
  - rewrite Hl. split; [now exists ""|exact Hw].
  - destruct (space_char_front w r Hc) as (_ & Hne & Hl & _).
    destruct (IH r (length_front _ _ Hne)) as [(ws & Hr & Hws) Hz].
    rewrite Hl. split; [|exact Hz].
    exists (w ++ ws). split.
    + rewrite PyStrFacts.append_assoc. now rewrite <- Hr.
    + destruct (space_char_front w ws Hc) as (_ & _ & _ & Ha). now rewrite Ha.
Qed.

(** [rstrip] cuts off white space only. *)
Lemma rstrip_split (s : string) :
  exists ws, s = rstrip s ++ ws /\ all_space ws = true.
Proof.
  induction s as [|c s IH]; [now exists ""|].
  cbn [rstrip]. destruct (all_space (String c s)) eqn:Ha.
  - now exists (String c s).
  - destruct IH as (ws & Hs & Hws). exists ws. split; [|exact Hws].
    simpl. now rewrite <- Hs.
Qed.

(** What [rstrip] leaves does not end with a white-space character. *)
Lemma rstrip_end (s p w : string) :
  rstrip s = p ++ w -> is_space_char w = false.
Proof.
  revert p; induction s as [|c s IH]; intros p Hr.
  - destruct p, w; try discriminate. reflexivity.
  - cbn [rstrip] in Hr. destruct (all_space (String c s)) eqn:Ha.
    + destruct p, w; try discriminate. reflexivity.
    + destruct p as [|x p].
      * simpl in Hr. destruct (is_space_char w) eqn:Hw; [|reflexivity].
        destruct (rstrip_split s) as (ws & Hs & Hws).
        destruct (space_char_front w ws Hw) as (_ & _ & _ & Hall).
        rewrite <- Hr in Hall.
        change (String c (rstrip s) ++ ws) with (String c (rstrip s ++ ws)) in Hall.
        rewrite <- Hs in Hall. congruence.
      * injection Hr as _ Hr. now apply (IH p).
Qed.

(** A prefix of a text that begins with no white-space character begins
    with none. *)
Lemma space_width_prefix (x y : string) :
  space_width (x ++ y) = 0 -> space_width x = 0.
Proof.
  intros H. destruct (space_view x) as [(Hw & _)|(w & r & -> & Hc)]; [exact Hw|].
  rewrite PyStrFacts.append_assoc in H.
  destruct (space_char_front w (r ++ y) Hc) as (Hlen & Hne & _).
  rewrite Hlen in H. destruct w; [congruence | discriminate].
Qed.

(** [strip]: the text is white space, the stripped text and white space,
    and the stripped text neither begins nor ends with a white-space
    character. *)
Lemma strip_spec (s : string) :
  (exists ws1 ws2,
      s = ws1 ++ strip s ++ ws2 /\ all_space ws1 = true /\ all_space ws2 = true)
  /\ space_width (strip s) = 0
  /\ (forall p w, strip s = p ++ w -> is_space_char w = false).
Proof.
  unfold strip.
  destruct (lstrip_spec s) as [(ws1 & Hs & H1) Hz].
  destruct (rstrip_split (lstrip s)) as (ws2 & Hl & H2).
  split; [|split].
  - exists ws1, ws2. repeat split; auto. now rewrite <- Hl.
  - apply (space_width_prefix _ ws2). now rewrite <- Hl.
  - intros p w. apply rstrip_end.
Qed.


End StripFacts.

(** ** The model at work *)

Example lower_ex : PyStr.lower "I'd PLAY Chess" = "i'd play chess".
Proof. reflexivity. Qed.

Example strip_ex : PyStr.strip "  ping  chess " = "ping  chess".
Proof. reflexivity. Qed.

Example split_ex : PyStr.split "/" "chess//go/" = ["chess"; ""; "go"; ""].
Proof. reflexivity. Qed.

Example remove_first_ex :
  PyStr.remove_first "query" "a query b query" = "a  b query".
Proof. reflexivity. Qed.

Example is_bot_mention_ex :
  is_bot_mention (E:=SpecModel.env) "<@!42>" = true
  /\ is_bot_mention (E:=SpecModel.env) "<@42>" = true
  /\ is_bot_mention (E:=SpecModel.env) "<@!43>" = false
  /\ is_bot_mention (E:=SpecModel.env) "" = false.
Proof. repeat split. Qed.

(** The scenario of the specification: Chess is ready with two players. *)
Example chess_scenario :
  let first :=
    WouldPlayHandler.get_all_responses (E:=SpecModel.env) (R:=SpecModel.roster)
      (SpecModel.msg SpecModel.alice "I'd play chess") SpecModel.empty in
  responses_of first = Some ["Alice would play Chess (that's 1)"]
  /\ match first with
     | Ok (_, db) =>
         responses_of
           (WouldPlayHandler.get_all_responses (E:=SpecModel.env) (R:=SpecModel.roster)
              (SpecModel.msg SpecModel.bob "I'd play chess") (SpecModel.tick db))
         = Some ["Bob would play Chess (that's 2)";
                 "<@!1>,<@!2> are ready to play Chess!"]
     | Raise _ => False
     end.
Proof. split; reflexivity. Qed.

Example query_aliases_scenario :
  responses_of
    (QueryPropertyHandler.get_all_responses (E:=SpecModel.env)
       (SpecModel.msg SpecModel.alice "<@!42> query aliases chess") SpecModel.empty)
  = Some ["aliases: chess"].
Proof. reflexivity. Qed.

(** ** [split_by_first_mention] *)

(** C6, as stated, fails: the text "<@!123 ping" has no mention token in
    front (there is no closing ">"), and [split_by_first_mention] does not
    return the empty string and the text for it, nor any pair: it raises
    [ValueError]. *)
Lemma first_mention_without_close_counterexample :
  let message := Message.mk "<@!123 ping" "" SpecModel.alice in
  PyStr.contains_char ">" (Message.content message) = false
  /\ split_by_first_mention message = Raise ValueError
  /\ split_by_first_mention message <> Ok ("", "<@!123 ping").
Proof. repeat split. discriminate. Qed.

(** C6, amended: on a text that starts with "<@" and has a closing ">",
    [split_by_first_mention] returns the text up to and including the first
    ">" and the rest with the white space at its two ends removed, so only
    the first mention is consumed; on a text that does not start with "<@" it
    returns the empty string and the whole text; on a text that starts with
    "<@" and has no ">" it raises [ValueError].  The remainder returned after
    a mention is the rest between white space, and neither begins nor ends
    with a white-space character; every white-space character of
    [str.isspace] is removed, and U+200B, which is none, is kept.  The two
    examples of the specification are instances. *)
Theorem split_by_first_mention_spec :
  (forall message : Message.t,
      let msg := Message.content message in
      (PyStr.startswith msg "<@" = true /\ PyStr.contains_char ">" msg = true ->
       exists body rest,
         msg = body ++ ">" ++ rest
         /\ PyStr.contains_char ">" body = false
         /\ split_by_first_mention message = Ok (body ++ ">", PyStr.strip rest)
         /\ (exists ws1 ws2,
                rest = ws1 ++ PyStr.strip rest ++ ws2
                /\ PyStr.all_space ws1 = true /\ PyStr.all_space ws2 = true)
         /\ PyStr.space_width (PyStr.strip rest) = 0
         /\ (forall p w, PyStr.strip rest = p ++ w -> PyStr.is_space_char w = false))
      /\ (PyStr.startswith msg "<@" = false ->
          split_by_first_mention message = Ok ("", msg))
      /\ (PyStr.startswith msg "<@" = true /\ PyStr.contains_char ">" msg = false ->
          split_by_first_mention message = Raise ValueError))
  /\ (forall clean author,
         split_by_first_mention (Message.mk "<@!123> ping" clean author)
         = Ok ("<@!123>", "ping"))
  /\ (forall clean author,
         split_by_first_mention (Message.mk "hello" clean author)
         = Ok ("", "hello"))
  /\ (forall clean author,
         split_by_first_mention
           (Message.mk ("<@!123>" ++ PyStr.whitespace ++ "ping <@!7>" ++ PyStr.whitespace)
                       clean author)
         = Ok ("<@!123>", "ping <@!7>"))
  /\ (let zero_width_space :=
        String (ascii_of_nat 226) (String (ascii_of_nat 128) (String (ascii_of_nat 139) "")) in
      PyStr.strip (zero_width_space ++ "ping" ++ zero_width_space)
      = zero_width_space ++ "ping" ++ zero_width_space).
Proof.
  split; [|split; [|split; [|split]]; reflexivity].
  intros message msg; split; [|split].
  - intros [Hstart Hclose].
    unfold split_by_first_mention, PyStr.index; fold msg; rewrite Hstart.
    destruct (PyStr.find_char ">" msg) as [i|] eqn:Ei.
    + destruct (PyStrFacts.find_char_Some _ _ _ Ei) as (rest & Hs & Hc & Hd).
      exists (PyStr.take i msg), rest.
      split; [exact Hs|]. split; [exact Hc|].
      destruct (StripFacts.strip_spec rest) as (Hparts & Hfront & Hend).
      split; [|split; [exact Hparts|split; [exact Hfront|exact Hend]]].
      cbv zeta. rewrite Hd. f_equal. f_equal.
      rewrite Hs at 1.
      replace (PyStr.take i msg ++ String ">" rest)
        with ((PyStr.take i msg ++ ">") ++ rest)
        by (rewrite PyStrFacts.append_assoc; reflexivity).
      assert (Hlen : String.length (PyStr.take i msg ++ ">") = i + 1).
      { rewrite PyStrFacts.length_append; simpl.
        assert (String.length (PyStr.take i msg) = i); [|lia].
        clear -Ei. revert i Ei; induction msg as [|d s IH]; simpl; intros i E.
        - discriminate.
        - destruct (Ascii.eqb d ">").
          + now injection E as <-.
          + destruct (PyStr.find_char ">" s) as [j|]; simpl in E; try discriminate.
            injection E as <-; simpl; f_equal; now apply IH. }
      rewrite <- Hlen. apply PyStrFacts.take_app_exact.
    + apply PyStrFacts.find_char_None in Ei. congruence.
  - intros Hstart. unfold split_by_first_mention; fold msg. now rewrite Hstart.
  - intros [Hstart Hclose].
    unfold split_by_first_mention, PyStr.index; fold msg; rewrite Hstart.
    apply PyStrFacts.find_char_None in Hclose. now rewrite Hclose.
Qed.

(** C8: [split_by_first_mention] returns a pair exactly on the texts that
    do not start with "<@" or contain a ">"; on a text that starts with "<@"
    and has no ">" the search for the closing delimiter raises [ValueError],
    and so does [should_handle] of every mention-triggered handler, before
    any response is computed. *)
Theorem split_by_first_mention_unclosed (message : Message.t) :
  PyStr.startswith (Message.content message) "<@" = true ->
  PyStr.contains_char ">" (Message.content message) = false ->
  split_by_first_mention message = Raise ValueError
  /\ (forall (E : Env) keywords,
         MentionMessageHandler.should_handle keywords message = Raise ValueError)
  /\ (forall message' : Message.t,
         is_ok (split_by_first_mention message') = true <->
         (PyStr.startswith (Message.content message') "<@" = false
          \/ PyStr.contains_char ">" (Message.content message') = true)).
Proof.
  intros Hstart Hclose.
  assert (Hraise : split_by_first_mention message = Raise ValueError).
  { unfold split_by_first_mention, PyStr.index. rewrite Hstart.
    apply PyStrFacts.find_char_None in Hclose. now rewrite Hclose. }
  split; [exact Hraise|split].
  - intros E keywords. unfold MentionMessageHandler.should_handle.
    now rewrite Hraise.
  - intros m. unfold split_by_first_mention, PyStr.index.
    destruct (PyStr.startswith (Message.content m) "<@") eqn:Hs.
    + destruct (PyStr.find_char ">" (Message.content m)) as [i|] eqn:Ei; simpl.
      * split; [intros _; right|reflexivity].
        destruct (PyStr.contains_char ">" (Message.content m)) eqn:Hc; auto.
        apply PyStrFacts.find_char_None in Hc. congruence.
      * apply PyStrFacts.find_char_None in Ei.
        split; [discriminate|intros [H|H]; congruence].
    + simpl. split; auto.
Qed.

Lemma split_by_first_mention_unclosed_witness :
  split_by_first_mention (SpecModel.msg SpecModel.alice "<@!123 ping")
  = Raise ValueError.
Proof.
  apply (split_by_first_mention_unclosed
           (SpecModel.msg SpecModel.alice "<@!123 ping")); reflexivity.
Defined.

(** ** Applicability of the mention-triggered handlers *)

Lemma should_handle_after_split (E : Env) (keywords : list string)
  (message : Message.t) (mention remainder : string) :
  split_by_first_mention message = Ok (mention, remainder) ->
  MentionMessageHandler.should_handle keywords message
  = Ok (is_bot_mention mention
        && existsb (fun kw => PyStr.startswith (PyStr.lower remainder) (PyStr.lower kw))
                   keywords).
Proof.
  intros Hsplit. unfold MentionMessageHandler.should_handle. now rewrite Hsplit.
Qed.

(** C3, as stated, fails: the message "<@!42> please query aliases chess"
    starts with a mention of the bot and has the keyword "query" in its
    remainder, and the QueryProperty handler does not apply to it. *)
Lemma QueryPropertyHandler_keyword_anywhere_counterexample :
  let message := SpecModel.msg SpecModel.alice "<@!42> please query aliases chess" in
  split_by_first_mention message = Ok ("<@!42>", "please query aliases chess")
  /\ is_bot_mention (E:=SpecModel.env) "<@!42>" = true
  /\ PyStr.contains "query" "please query aliases chess" = true
  /\ QueryPropertyHandler.should_handle (E:=SpecModel.env) message = Ok false.
Proof. repeat split. Qed.

(** C3, amended: for a message whose first token is a mention of the bot,
    the QueryProperty handler applies exactly when the remainder after the
    mention starts with "query", compared in lower case. *)
Theorem QueryPropertyHandler_should_handle_prefix (E : Env) (message : Message.t)
  (mention remainder : string) :
  split_by_first_mention message = Ok (mention, remainder) ->
  is_bot_mention mention = true ->
  (QueryPropertyHandler.should_handle message = Ok true
   <-> PyStr.startswith (PyStr.lower remainder) "query" = true).
Proof.
  intros Hsplit Hbot.
  unfold QueryPropertyHandler.should_handle.
  rewrite (should_handle_after_split E _ _ _ _ Hsplit), Hbot.
  unfold QueryPropertyHandler.keywords.
  cbn [existsb].
  change (PyStr.lower "query") with "query".
  rewrite orb_false_r, andb_true_l.
  split; [now intros [= ->] | now intros ->].
Qed.

Lemma QueryPropertyHandler_should_handle_prefix_witness :
  QueryPropertyHandler.should_handle (E:=SpecModel.env)
    (SpecModel.msg SpecModel.alice "<@!42> QUERY aliases chess") = Ok true
  <-> PyStr.startswith (PyStr.lower "QUERY aliases chess") "query" = true.
Proof.
  apply (QueryPropertyHandler_should_handle_prefix SpecModel.env
           (SpecModel.msg SpecModel.alice "<@!42> QUERY aliases chess") "<@!42>");
    reflexivity.
Defined.

Lemma remove_first_absent (old s : string) :
  PyStr.contains old s = false -> PyStr.remove_first old s = s.
Proof.
  induction s as [|c s IH]; simpl; intros H;
    apply orb_false_elim in H as [Hp Hc]; rewrite Hp; [reflexivity|].
  now rewrite IH.
Qed.

Lemma split_string_by_keywords_absent (keywords : list string) (s : string) :
  forallb (fun kw => negb (PyStr.contains kw s)) keywords = true ->
  MentionMessageHandler.split_string_by_keywords keywords s = (None, s).
Proof.
  induction keywords as [|kw rest IH]; simpl; intros H; [reflexivity|].
  apply andb_prop in H as [Hkw Hrest].
  apply negb_true_iff in Hkw.
  rewrite (remove_first_absent _ _ Hkw), String.eqb_refl; simpl.
  now apply IH.
Qed.

(** C9: [should_handle] compares the keywords in lower case, so two
    messages with the same mention whose remainders differ only in case are
    accepted alike, while [split_string_by_keywords] removes a keyword only
    where it occurs literally and returns (none, the text) when none does.
    The message "<@!42> Query aliases chess" is accepted by the QueryProperty
    handler, its keyword is not removed, and the handler reads "Query" as
    the attribute name and "aliases" as the game name. *)
Theorem keyword_case_mismatch :
  (forall (E : Env) keywords m1 m2 mention r1 r2,
      split_by_first_mention m1 = Ok (mention, r1) ->
      split_by_first_mention m2 = Ok (mention, r2) ->
      PyStr.lower r1 = PyStr.lower r2 ->
      MentionMessageHandler.should_handle keywords m1
      = MentionMessageHandler.should_handle keywords m2)
  /\ (forall keywords s,
         forallb (fun kw => negb (PyStr.contains kw s)) keywords = true ->
         MentionMessageHandler.split_string_by_keywords keywords s = (None, s))
  /\ (let message := SpecModel.msg SpecModel.alice "<@!42> Query aliases chess" in
      QueryPropertyHandler.should_handle (E:=SpecModel.env) message = Ok true
      /\ split_by_first_mention message = Ok ("<@!42>", "Query aliases chess")
      /\ MentionMessageHandler.split_string_by_keywords
           QueryPropertyHandler.keywords "Query aliases chess"
         = (None, "Query aliases chess")
      /\ QueryPropertyHandler.parse message = Ok ("Query", "aliases")).
Proof.
  split; [|split].
  - intros E keywords m1 m2 mention r1 r2 H1 H2 Hlow.
    rewrite (should_handle_after_split E _ _ _ _ H1),
            (should_handle_after_split E _ _ _ _ H2), Hlow.
    reflexivity.
  - exact split_string_by_keywords_absent.
  - repeat split.
Qed.

(** ** Multi-game extraction *)

Section Extraction.

Context {E : Env} {DB : Type}.
Variable self : GameExtractionMixin.t DB.
Variable message : Message.t.

Let generator := GameExtractionMixin.get_all_responses_with_game self message.

(** The loop of [get_all_responses] calls the generator on the games of the
    non-empty names, in order, and appends what it returns. *)
Lemma for_game_names_spec (game_names : list string) :
  forall (responses : list string) (db : DB),
    GameExtractionMixin.for_game_names self message game_names responses db
    = match Spec.for_each_game generator
              (map lookup_game_by_name_or_alias (filter PyStr.truthy game_names)) db with
      | Ok (rs, db') => Ok (app responses rs, db')
      | Raise e => Raise e
      end.
Proof.
  induction game_names as [|game_name rest IH]; intros responses db; simpl.
  - unfold ret. now rewrite app_nil_r.
  - destruct (PyStr.truthy game_name); simpl; [|apply IH].
    unfold bind at 1 2. fold generator.
    destruct (generator (lookup_game_by_name_or_alias game_name) db)
      as [[r db1]|e]; [|reflexivity].
    rewrite IH. unfold bind.
    destruct (Spec.for_each_game generator _ db1) as [[rs db2]|e]; [|reflexivity].
    unfold ret. now rewrite app_assoc.
Qed.

Lemma any_candidates (plays : string) :
  PyStr.any (PyStr.split GameExtractionMixin.multi_game_delimiter plays) = false
  <-> Spec.candidates plays = [].
Proof.
  unfold PyStr.any, Spec.candidates.
  induction (PyStr.split GameExtractionMixin.multi_game_delimiter plays) as [|n l IH];
    simpl; [tauto|].
  destruct (PyStr.truthy n); simpl; [split; discriminate | exact IH].
Qed.

Lemma responses_of_plays_spec (plays : string) (db : DB) :
  GameExtractionMixin.responses_of_plays self message plays db
  = match Spec.candidates plays with
    | [] => GameExtractionMixin.get_all_responses_without_game self message db
    | names => Spec.for_each_game generator (map lookup_game_by_name_or_alias names) db
    end.
Proof.
  unfold GameExtractionMixin.responses_of_plays.
  destruct (PyStr.any _) eqn:Hany.
  - rewrite for_game_names_spec. fold (Spec.candidates plays).
    destruct (Spec.candidates plays) as [|n names] eqn:Hc.
    + apply any_candidates in Hc. congruence.
    + destruct (Spec.for_each_game generator _ db) as [[rs db']|e]; reflexivity.
  - apply any_candidates in Hany. rewrite Hany.
    unfold bind, ret.
    destruct (GameExtractionMixin.get_all_responses_without_game self message db)
      as [[r db']|e]; reflexivity.
Qed.

End Extraction.

(** C4: for every handler that mixes in the game extraction and every
    message, with the remainder left by the removal of the trigger fragment
    split on "/": when there is a non-empty candidate, the per-game generator
    is run on the game of each (non-empty) candidate, left to right, and the
    results are concatenated; when there is none, the handler's no-game
    generator is run instead.  "I'd play chess/go" gives one commitment for
    chess and then one for go. *)
Theorem get_all_responses_per_candidate :
  (forall (E : Env) (DB : Type) (self : GameExtractionMixin.t DB)
          (message : Message.t) (db : DB),
      GameExtractionMixin.get_all_responses self message db
      = match Spec.candidates
                (extract_remainder_after_fragments
                   (GameExtractionMixin.fragments self) (Message.content message)) with
        | [] => GameExtractionMixin.get_all_responses_without_game self message db
        | names =>
            Spec.for_each_game
              (GameExtractionMixin.get_all_responses_with_game self message)
              (map lookup_game_by_name_or_alias names) db
        end)
  /\ responses_of
       (WouldPlayHandler.get_all_responses (E:=SpecModel.env) (R:=SpecModel.roster)
          (SpecModel.msg SpecModel.alice "I'd play chess/go") SpecModel.empty)
     = Some ["Alice would play Chess (that's 1)"; "Alice would play Go (that's 1)"].
Proof.
  split; [|reflexivity].
  intros E DB self message db.
  unfold GameExtractionMixin.get_all_responses.
  apply responses_of_plays_spec.
Qed.

Lemma logged_with_game {DB : Type} (self : GameExtractionMixin.t DB)
  (message : Message.t) (game : option Game.t) (db : DB) (log : list (option Game.t)) :
  GameExtractionMixin.get_all_responses_with_game (logged self) message game (db, log)
  = match GameExtractionMixin.get_all_responses_with_game self message game db with
    | Ok (r, db') => Ok (r, (db', app log [game]))
    | Raise e => Raise e
    end.
Proof. reflexivity. Qed.

Lemma for_each_game_logged {DB : Type} (self : GameExtractionMixin.t DB)
  (message : Message.t) (games : list (option Game.t)) :
  forall (db : DB) (log : list (option Game.t)),
    Spec.for_each_game
      (GameExtractionMixin.get_all_responses_with_game (logged self) message)
      games (db, log)
    = match Spec.for_each_game
              (GameExtractionMixin.get_all_responses_with_game self message) games db with
      | Ok (rs, db') => Ok (rs, (db', app log games))
      | Raise e => Raise e
      end.
Proof.
  induction games as [|game rest IH]; intros db log; cbn [Spec.for_each_game].
  - unfold ret. now rewrite app_nil_r.
  - unfold bind. rewrite logged_with_game.
    destruct (GameExtractionMixin.get_all_responses_with_game self message game db)
      as [[r db1]|e]; [|reflexivity].
    rewrite IH.
    destruct (Spec.for_each_game _ rest db1) as [[rs db2]|e]; [|reflexivity].
    unfold ret. now rewrite <- app_assoc.
Qed.

Lemma candidates_nonempty (plays : string) :
  Forall (fun name => name <> "") (Spec.candidates plays).
Proof.
  apply Forall_forall. intros name Hin.
  apply filter_In in Hin as [_ Ht]. now destruct name.
Qed.

(** C10: when the remainder has a non-empty segment, the calls of the
    per-game generator are exactly the games of the non-empty segments, one
    call each and in their order (the logged run records them); no call is
    made for an empty segment, the catalog is not consulted for one (the
    run does not depend on what the lookup would answer for the empty name),
    and delimiters at the ends or doubled change nothing: remainders with the
    same non-empty segments give the same run, as "chess//go" and "chess/go"
    do. *)
Theorem empty_candidates_skipped (E : Env) (DB : Type)
  (self : GameExtractionMixin.t DB) (message : Message.t) (plays : string) (db : DB) :
  PyStr.any (PyStr.split GameExtractionMixin.multi_game_delimiter plays) = true ->
  GameExtractionMixin.responses_of_plays (logged self) message plays (db, [])
  = match GameExtractionMixin.responses_of_plays self message plays db with
    | Ok (rs, db') =>
        Ok (rs, (db', map lookup_game_by_name_or_alias (Spec.candidates plays)))
    | Raise e => Raise e
    end
  /\ Forall (fun name => name <> "") (Spec.candidates plays)
  /\ (forall lookup' : string -> option Game.t,
         (forall name, name <> "" -> lookup' name = lookup_game_by_name_or_alias name) ->
         GameExtractionMixin.responses_of_plays (E:=with_lookup E lookup')
           self message plays db
         = GameExtractionMixin.responses_of_plays self message plays db)
  /\ (forall plays' : string,
         Spec.candidates plays' = Spec.candidates plays ->
         GameExtractionMixin.responses_of_plays self message plays' db
         = GameExtractionMixin.responses_of_plays self message plays db)
  /\ Spec.candidates "chess//go" = Spec.candidates "chess/go".
Proof.
  intros Hany.
  assert (Hc : Spec.candidates plays <> []).
  { intros Hc. apply any_candidates in Hc. congruence. }
  repeat split.
  - rewrite !responses_of_plays_spec.
    destruct (Spec.candidates plays) as [|n names] eqn:Hnames; [congruence|].
    apply for_each_game_logged.
  - apply candidates_nonempty.
  - intros lookup' Hagree.
    rewrite (responses_of_plays_spec (E:=with_lookup E lookup')),
            (responses_of_plays_spec (E:=E)).
    destruct (Spec.candidates plays) as [|n names] eqn:Hnames; [congruence|].
    f_equal. apply map_ext_in. intros name Hin.
    rewrite <- Hnames in Hin.
    pose proof (candidates_nonempty plays) as Hne.
    rewrite Forall_forall in Hne. now apply Hagree, Hne.
  - intros plays' Hsame. rewrite !responses_of_plays_spec. now rewrite Hsame.
Qed.

Lemma empty_candidates_skipped_witness :
  GameExtractionMixin.responses_of_plays (E:=SpecModel.env)
    (logged (ClearHandler.mixin (R:=SpecModel.roster)))
    (SpecModel.msg SpecModel.alice "clear /chess//go/")
    "/chess//go/" (SpecModel.empty, [])
  = Ok (["Cleared Chess"; "Cleared Go"],
        (SpecModel.empty, [Some SpecModel.Chess; Some SpecModel.Go])).
Proof.
  apply (empty_candidates_skipped SpecModel.env SpecModel.Roster
           (ClearHandler.mixin (R:=SpecModel.roster))
           (SpecModel.msg SpecModel.alice "clear /chess//go/")
           "/chess//go/" SpecModel.empty).
  reflexivity.
Defined.

(** ** Clear and Ping *)

(** The answer "No game specified!" is the per-game answer of Clear for a
    name the catalog does not know. *)
Lemma ClearHandler_unresolved_game {DB : Type} {R : RosterStore DB}
  (message : Message.t) (db : DB) :
  ClearHandler.get_all_responses_with_game message None db
  = Ok (["No game specified!"], db).
Proof. reflexivity. Qed.

(** The Same handler completes on a name the catalog does not know: it
    falls back on the game of the last would-play. *)
Lemma SameHandler_unresolved_game_returns {DB : Type} {R : RosterStore DB}
  (message : Message.t) (db : DB) :
  is_ok (SameHandler.get_all_responses_with_game message None db) = true.
Proof.
  unfold SameHandler.get_all_responses_with_game,
    SameHandler.get_all_responses_with_optional_game, bind, gets.
  destruct (get_last_would_play None db) as [last_would_play|]; [|reflexivity].
  now destruct (record_would_play _ _ db).
Qed.

Lemma PingHandler_for_each_game_unresolved {DB : Type} {R : RosterStore DB}
  (message : Message.t) (games : list (option Game.t)) :
  In None games ->
  forall db : DB,
    Spec.for_each_game (PingHandler.get_all_responses_with_game message) games db
    = Raise AttributeError.
Proof.
  induction games as [|game rest IH]; intros Hin db; [contradiction|].
  cbn [Spec.for_each_game]. unfold bind at 1.
  destruct game as [g|].
  - destruct Hin as [Hin|Hin]; [discriminate|].
    cbn. unfold bind at 1. now rewrite IH.
  - reflexivity.
Qed.

(** C2 (the code departs from it): a Ping message with a non-empty game
    name that the catalog does not resolve makes [get_all_responses] raise
    [AttributeError]: the per-game generator calls a method of the missing
    game.  The WouldPlay generator raises on a missing game as well; Clear
    and Same treat it as a case of its own. *)
Theorem PingHandler_unresolved_game_raises (E : Env) (DB : Type) (R : RosterStore DB)
  (message : Message.t) (db : DB) (game_name : string) :
  In game_name
     (PyStr.split GameExtractionMixin.multi_game_delimiter
        (extract_remainder_after_fragments PingHandler.keywords (Message.content message))) ->
  game_name <> "" ->
  lookup_game_by_name_or_alias game_name = None ->
  PingHandler.get_all_responses message db = Raise AttributeError
  /\ PingHandler.get_all_responses_with_game message None db = Raise AttributeError
  /\ WouldPlayHandler.get_all_responses_with_game message None db = Raise AttributeError.
Proof.
  intros Hin Hne Hnone.
  repeat split.
  unfold PingHandler.get_all_responses, GameExtractionMixin.get_all_responses.
  rewrite responses_of_plays_spec.
  change (GameExtractionMixin.fragments PingHandler.mixin) with PingHandler.keywords.
  assert (Hc : In game_name
                 (Spec.candidates
                    (extract_remainder_after_fragments PingHandler.keywords
                       (Message.content message)))).
  { apply filter_In. split; [exact Hin | now destruct game_name]. }
  destruct (Spec.candidates _) as [|n names] eqn:Hnames; [contradiction|].
  apply PingHandler_for_each_game_unresolved.
  rewrite <- Hnone. now apply in_map.
Qed.

Lemma PingHandler_unresolved_game_raises_witness :
  PingHandler.get_all_responses (E:=SpecModel.env) (R:=SpecModel.roster)
    (SpecModel.msg SpecModel.alice "ping chess/draughts") SpecModel.empty
  = Raise AttributeError.
Proof.
  apply (PingHandler_unresolved_game_raises SpecModel.env SpecModel.Roster SpecModel.roster
           (SpecModel.msg SpecModel.alice "ping chess/draughts") SpecModel.empty
           "draughts").
  - simpl. right. left. reflexivity.
  - discriminate.
  - reflexivity.
Defined.

(** ** Same, with no game specified *)

Section SameWithoutGame.

Context {E : Env} {DB : Type} {R : RosterStore DB}.
Variable message : Message.t.

Lemma record_each_spec (games : list Game.t) :
  forall (messages : list string) (db : DB),
    SameHandler.record_each message games messages db
    = Ok (app messages (fst (Spec.record_and_announce (Message.author message) games db)),
          snd (Spec.record_and_announce (Message.author message) games db)).
Proof.
  induction games as [|game rest IH]; intros messages db; simpl.
  - unfold ret. now rewrite app_nil_r.
  - unfold bind, gets.
    destruct (record_would_play (Message.author message) game db) as [would_play db1].
    rewrite IH.
    destruct (Spec.record_and_announce (Message.author message) rest db1) as [lines db2].
    simpl. now rewrite <- app_assoc.
Qed.

Lemma ready_each_spec (games : list Game.t) :
  forall (messages : list string) (db : DB),
    SameHandler.ready_each games messages db
    = Ok (app messages (Spec.readiness games db), db).
Proof.
  induction games as [|game rest IH]; intros messages db; simpl.
  - unfold ret. now rewrite app_nil_r.
  - unfold bind, get_any_ready_messages, gets. rewrite IH.
    now rewrite <- app_assoc.
Qed.

Lemma record_and_announce_store (author : Player.t) (games : list Game.t) :
  forall db : DB,
    snd (Spec.record_and_announce author games db)
    = fold_left (fun db game => snd (record_would_play author game db)) games db.
Proof.
  induction games as [|game rest IH]; intros db; simpl; [reflexivity|].
  destruct (record_would_play author game db) as [would_play db1] eqn:Hrec.
  specialize (IH db1).
  destruct (Spec.record_and_announce author rest db1) as [lines db2].
  simpl in *. exact IH.
Qed.

Lemma record_and_announce_lines (author : Player.t) (games : list Game.t) :
  forall db : DB,
    Forall2 (fun game line =>
               exists user n, line = SameHandler.would_also_play user game n)
            games (fst (Spec.record_and_announce author games db)).
Proof.
  induction games as [|game rest IH]; intros db; simpl; [constructor|].
  destruct (record_would_play author game db) as [would_play db1].
  specialize (IH db1).
  destruct (Spec.record_and_announce author rest db1) as [lines db2].
  simpl in *. constructor; [eauto | exact IH].
Qed.

End SameWithoutGame.

(** A "same" with nothing but delimiters after it takes the no-game path. *)
Lemma SameHandler_no_candidate (E : Env) (DB : Type) (R : RosterStore DB)
  (message : Message.t) (db : DB) :
  Spec.candidates
    (extract_remainder_after_fragments SameHandler.fragments (Message.content message))
  = [] ->
  SameHandler.get_all_responses message db
  = SameHandler.get_all_responses_without_game message db.
Proof.
  intros Hc.
  unfold SameHandler.get_all_responses, GameExtractionMixin.get_all_responses.
  rewrite responses_of_plays_spec.
  change (GameExtractionMixin.fragments SameHandler.mixin) with SameHandler.fragments.
  now rewrite Hc.
Qed.

(** C5: the Same handler with no game specified.  With no would-play on
    record it returns the empty sequence and leaves the store as it is; it
    does not raise.  Otherwise it records an intent of the author for each
    game of the most recent batch (each such game once), and its responses
    are the announcements of these commitments, one per game, followed by
    the readiness messages of these games read in the resulting store: every
    announcement comes before every readiness message. *)
Theorem SameHandler_without_game (E : Env) (DB : Type) (R : RosterStore DB)
  (message : Message.t) (db : DB) :
  let batch := get_last_would_plays_at_same_time db in
  let affected := set_iter (map WouldPlay.game batch) in
  let announcements :=
    fst (Spec.record_and_announce (Message.author message) affected db) in
  let db' := snd (Spec.record_and_announce (Message.author message) affected db) in
  SameHandler.get_all_responses_without_game message db
  = match batch with
    | [] => Ok ([], db)
    | _ => Ok (app announcements (Spec.readiness affected db'), db')
    end
  /\ (forall would_play, In would_play batch -> In (WouldPlay.game would_play) affected)
  /\ NoDup affected
  /\ db' = fold_left
             (fun db game => snd (record_would_play (Message.author message) game db))
             affected db
  /\ Forall2 (fun game line =>
                exists user n, line = SameHandler.would_also_play user game n)
             affected announcements.
Proof.
  intros batch affected announcements db'.
  repeat split.
  - unfold SameHandler.get_all_responses_without_game, bind, gets.
    fold batch. destruct batch as [|would_play rest] eqn:Hbatch; [reflexivity|].
    fold batch affected. rewrite record_each_spec.
    fold announcements db'. rewrite ready_each_spec. reflexivity.
  - intros would_play Hin. apply set_iter_In. now apply in_map.
  - apply set_iter_NoDup.
  - apply record_and_announce_store.
  - apply record_and_announce_lines.
Qed.

(** ** Status *)

Lemma for_games_spec {E : Env} {DB : Type} {R : RosterStore DB} (gs : list Game.t) :
  forall (messages ready_messages : list string) (db : DB),
    let active :=
      filter (fun game => negb (Nat.eqb (List.length (get_available_players game db)) 0))
             gs in
    StatusHandler.for_games gs messages ready_messages db
    = Ok ((app messages
             (map (fun game => StatusHandler.has_line game
                                 (List.length (get_available_players game db)))
                  active),
           app ready_messages (Spec.readiness active db)),
          db).
Proof.
  induction gs as [|game rest IH]; intros messages ready_messages db; simpl.
  - unfold ret. now rewrite !app_nil_r.
  - unfold bind at 1. unfold gets at 1.
    destruct (get_available_players game db) as [|p players] eqn:Hp; simpl.
    + apply IH.
    + unfold bind, get_any_ready_messages, gets. rewrite IH. simpl.
      rewrite Hp. simpl. now rewrite <- !app_assoc.
Qed.

Lemma prefix_append (a b : string) : String.prefix a (a ++ b) = true.
Proof.
  induction a as [|c a IH]; simpl; [now destruct b|].
  destruct (ascii_dec c c); [exact IH | congruence].
Qed.

Lemma prefix_refl (a : string) : String.prefix a a = true.
Proof.
  induction a as [|c a IH]; simpl; [reflexivity|].
  destruct (ascii_dec c c); [exact IH | congruence].
Qed.

Lemma contains_of_prefix (sub s : string) :
  String.prefix sub s = true -> PyStr.contains sub s = true.
Proof.
  intros H. destruct s as [|c s].
  - destruct sub; [reflexivity | discriminate H].
  - cbn [PyStr.contains]. now rewrite H.
Qed.

Lemma join_head_prefix (sep x : string) (l : list string) :
  String.prefix x (PyStr.join sep (x :: l)) = true.
Proof.
  destruct l as [|y l]; cbn [PyStr.join]; [apply prefix_refl | apply prefix_append].
Qed.

(** C7: whatever the message and the roster, the Status handler returns
    exactly one string and leaves the store as it is.  The string is the
    lines "Bot alive", then one line "<game> has <count>" for each catalog
    game with at least one available player (these and no other games, in
    catalog order), the count being the number of its available players in
    decimal, then the readiness messages of those of them that are ready,
    joined by line feeds; so it starts with, and contains, "Bot alive".
    With Alice and Bob for Chess and Bob for Go the reply counts 2 and 1 and
    announces Chess; with nobody it is "Bot alive" alone. *)
Theorem StatusHandler_single_reply (E : Env) (DB : Type) (R : RosterStore DB)
  (message : Message.t) (db : DB) :
  StatusHandler.get_all_responses message db
  = Ok ([PyStr.join StatusHandler.newline (Spec.status_lines db)], db)
  /\ PyStr.startswith (PyStr.join StatusHandler.newline (Spec.status_lines db))
       "Bot alive" = true
  /\ PyStr.contains "Bot alive"
       (PyStr.join StatusHandler.newline (Spec.status_lines db)) = true
  /\ (forall game,
         In game (Spec.active_games db)
         <-> In game games /\ get_available_players game db <> [])
  /\ Spec.status_lines db
     = app ("Bot alive"
             :: map (fun game =>
                       Game.name game ++ " has "
                       ++ PyStr.of_nat (List.length (get_available_players game db)))
                    (Spec.active_games db))
           (Spec.readiness (Spec.active_games db) db)
  /\ (let line_feed := String (ascii_of_nat 10) "" in
      let chess_and_go :=
        SpecModel.mkRoster 1
          [(0, WouldPlay.mk SpecModel.alice SpecModel.Chess);
           (1, WouldPlay.mk SpecModel.bob SpecModel.Chess);
           (1, WouldPlay.mk SpecModel.bob SpecModel.Go)] in
      responses_of
        (StatusHandler.get_all_responses (E:=SpecModel.env) (R:=SpecModel.roster)
           message chess_and_go)
      = Some ["Bot alive" ++ line_feed ++ "Chess has 2" ++ line_feed ++ "Go has 1"
              ++ line_feed ++ "<@!1>,<@!2> are ready to play Chess!"]
      /\ responses_of
           (StatusHandler.get_all_responses (E:=SpecModel.env) (R:=SpecModel.roster)
              message SpecModel.empty)
         = Some ["Bot alive"]).
Proof.
  assert (Hp : PyStr.startswith
                 (PyStr.join StatusHandler.newline (Spec.status_lines db))
                 "Bot alive" = true).
  { unfold PyStr.startswith, Spec.status_lines.
    rewrite <- app_comm_cons. apply join_head_prefix. }
  split; [|split; [exact Hp|split; [apply contains_of_prefix, Hp|split; [|split]]]].
  - unfold StatusHandler.get_all_responses, bind.
    rewrite for_games_spec. reflexivity.
  - intros game. unfold Spec.active_games. rewrite filter_In.
    destruct (get_available_players game db) as [|p players]; simpl.
    + split; [intros [_ H]; discriminate | intros [_ H]; now contradiction H].
    + split; intros [Hin _]; (split; [exact Hin|]); [discriminate | reflexivity].
  - reflexivity.
  - split; reflexivity.
Qed.

(** * Further properties of the handlers *)

(** ** More on strings *)

Module PyStrMore.
Import PyStr.

Lemma drop_app_exact (a b : string) : drop (String.length a) (a ++ b) = b.
Proof. induction a as [|c a IH]; simpl; [now destruct b | exact IH]. Qed.

Lemma find_char_app (c : ascii) (a b : string) :
  contains_char c a = false ->
  find_char c (a ++ String c b) = Some (String.length a).
Proof.
  induction a as [|d a IH]; simpl; intros H.
  - now rewrite Ascii.eqb_refl.
  - apply orb_false_elim in H as [Hd Ha]. rewrite Hd, (IH Ha). reflexivity.
Qed.

Lemma contains_char_app (c : ascii) (a b : string) :
  contains_char c (a ++ b) = contains_char c a || contains_char c b.
Proof.
  induction a as [|d a IH]; simpl; [reflexivity|].
  now rewrite IH, orb_assoc.
Qed.

Lemma prefix_trans (a b s : string) :
  String.prefix a b = true -> String.prefix b s = true -> String.prefix a s = true.
Proof.
  revert b s; induction a as [|x a IH]; intros b s Hab Hbs; [now destruct s|].
  destruct b as [|y b]; [discriminate|].
  destruct s as [|z s]; [discriminate|].
  simpl in *.
  destruct (ascii_dec x y) as [->|]; [|discriminate].
  destruct (ascii_dec y z) as [->|]; [|discriminate].
  eapply IH; eassumption.
Qed.

Lemma prefix_app_l (p a b : string) :
  String.prefix p a = true -> String.prefix p (a ++ b) = true.
Proof.
  revert a; induction p as [|x p IH]; intros a H; [now destruct (a ++ b)|].
  destruct a as [|y a]; [discriminate|]. simpl in *.
  destruct (ascii_dec x y); [now apply IH | discriminate].
Qed.

Lemma prefix_cons (a b : ascii) (p s : string) :
  String.prefix (String a p) (String b s)
  = if ascii_dec a b then String.prefix p s else false.
Proof. reflexivity. Qed.

Lemma append_nil_r (s : string) : s ++ "" = s.
Proof. induction s as [|c s IH]; simpl; [reflexivity | now rewrite IH]. Qed.

Lemma prefix_nil (s : string) : String.prefix EmptyString s = true.
Proof. now destruct s. Qed.


Lemma slice_wrapped (p inner : string) (c : ascii) :
  slice_but_last (String.length p) (p ++ inner ++ String c EmptyString) = inner.
Proof.
  unfold slice_but_last.
  replace (p ++ inner ++ String c "") with ((p ++ inner) ++ String c "")
    by apply PyStrFacts.append_assoc.
  rewrite PyStrFacts.length_append. simpl String.length.
  replace (String.length (p ++ inner) + 1 - 1) with (String.length (p ++ inner)) by lia.
  rewrite PyStrFacts.take_app_exact. apply drop_app_exact.
Qed.

Lemma string_of_uint_no_char (c : ascii) (d : Decimal.uint) :
  Nat.ltb (nat_of_ascii c) 48 || Nat.ltb 57 (nat_of_ascii c) = true ->
  contains_char c (NilEmpty.string_of_uint d) = false.
Proof.
  intros Hc.
  assert (Hd : forall k : ascii,
             Nat.leb 48 (nat_of_ascii k) && Nat.leb (nat_of_ascii k) 57 = true ->
             Ascii.eqb k c = false).
  { intros k Hk. apply Ascii.eqb_neq. intros ->.
    apply andb_prop in Hk as [H1 H2].
    apply Nat.leb_le in H1, H2.
    apply orb_prop in Hc as [H|H]; apply Nat.ltb_lt in H; lia. }
  induction d as [|d IH|d IH|d IH|d IH|d IH|d IH|d IH|d IH|d IH|d IH];
    cbn [NilEmpty.string_of_uint contains_char]; [reflexivity| | | | | | | | | |];
    (rewrite Hd by reflexivity); exact IH.
Qed.

(** The decimal form of a number has digits only. *)
Lemma of_nat_no_char (c : ascii) (n : nat) :
  Nat.ltb (nat_of_ascii c) 48 || Nat.ltb 57 (nat_of_ascii c) = true ->
  contains_char c (of_nat n) = false.
Proof.
  intros Hc. unfold of_nat, NilZero.string_of_uint.
  pose proof (string_of_uint_no_char c (Nat.to_uint n) Hc) as H.
  destruct (Nat.to_uint n); try exact H.
  cbn [contains_char]. rewrite orb_false_r. apply Ascii.eqb_neq. intros <-.
  discriminate Hc.
Qed.

End PyStrMore.

(** ** Mentions *)

(** A text made of a mention body without ">", the ">" and a rest is split
    there. *)
Lemma split_by_first_mention_build (body rest clean : string) (author : Player.t) :
  PyStr.startswith body "<@" = true ->
  PyStr.contains_char ">" body = false ->
  split_by_first_mention (Message.mk (body ++ ">" ++ rest) clean author)
  = Ok (body ++ ">", PyStr.strip rest).
Proof.
  intros Hstart Hclose.
  unfold split_by_first_mention, PyStr.index, PyStr.startswith.
  cbn [Message.content].
  rewrite (PyStrMore.prefix_app_l _ _ _ Hstart).
  change (body ++ ">" ++ rest) with (body ++ String ">" rest).
  rewrite (PyStrMore.find_char_app _ _ _ Hclose). cbv zeta.
  replace (body ++ String ">" rest) with ((body ++ ">") ++ rest)
    by (rewrite PyStrFacts.append_assoc; reflexivity).
  replace (String.length body + 1) with (String.length (body ++ ">"))
    by (rewrite PyStrFacts.length_append; reflexivity).
  now rewrite PyStrFacts.take_app_exact, PyStrMore.drop_app_exact.
Qed.

Lemma is_bot_mention_inner (E : Env) (inner : string) :
  match CLIENT_ID with
  | Some client_id => String.eqb inner client_id
  | None => false
  end = true
  <-> CLIENT_ID = Some inner.
Proof.
  destruct CLIENT_ID as [client_id|].
  - rewrite String.eqb_eq. split; [now intros -> | now intros [= ->]].
  - split; discriminate.
Qed.

Lemma is_bot_mention_bang (E : Env) (id : string) :
  is_bot_mention ("<@!" ++ id ++ ">") = true <-> CLIENT_ID = Some id.
Proof.
  unfold is_bot_mention, PyStr.startswith.
  rewrite (PyStrMore.prefix_app_l "<@!" "<@!" (id ++ ">") eq_refl).
  change 3 with (String.length "<@!").
  rewrite PyStrMore.slice_wrapped. apply is_bot_mention_inner.
Qed.

Lemma is_bot_mention_plain (E : Env) (id : string) :
  PyStr.startswith id "!" = false ->
  is_bot_mention ("<@" ++ id ++ ">") = true <-> CLIENT_ID = Some id.
Proof.
  intros Hid. unfold is_bot_mention.
  assert (Hs : PyStr.startswith ("<@" ++ id ++ ">") "<@!" = false).
  { destruct id as [|c id]; [reflexivity|].
    unfold PyStr.startswith in *.
    change ("<@" ++ String c id ++ ">")
      with (String "<" (String "@" (String c (id ++ ">")))).
    rewrite !PyStrMore.prefix_cons. rewrite PyStrMore.prefix_cons in Hid.
    destruct (ascii_dec "<" "<"); [|reflexivity].
    destruct (ascii_dec "@" "@"); [|reflexivity].
    destruct (ascii_dec "!" c); [|reflexivity].
    now rewrite PyStrMore.prefix_nil in Hid. }
  rewrite Hs. change 2 with (String.length "<@").
  rewrite PyStrMore.slice_wrapped. apply is_bot_mention_inner.
Qed.

(** X1: the bot takes a mention for its own exactly when the identifier
    between the wrapper characters is the configured client id, for the
    form "<@!ID>" and, when the identifier does not itself start with "!",
    for the form "<@ID>"; with no client id configured no mention is the
    bot's. *)
Theorem is_bot_mention_forms (E : Env) (id : string) :
  (is_bot_mention ("<@!" ++ id ++ ">") = true <-> CLIENT_ID = Some id)
  /\ (PyStr.startswith id "!" = false ->
      (is_bot_mention ("<@" ++ id ++ ">") = true <-> CLIENT_ID = Some id))
  /\ (CLIENT_ID = None -> forall mention, is_bot_mention mention = false).
Proof.
  split; [apply is_bot_mention_bang|split; [apply is_bot_mention_plain|]].
  intros Hnone mention. unfold is_bot_mention. now rewrite Hnone.
Qed.

(** X2: the mention [create_mention] writes for a player is taken for the
    bot's exactly when the player's id, in decimal, is the client id; and a
    message that starts with such a mention is split into that mention and
    the stripped rest. *)
Theorem create_mention_round_trip (E : Env) (player : Player.t)
  (rest clean : string) (author : Player.t) :
  (is_bot_mention (create_mention player) = true
   <-> CLIENT_ID = Some (PyStr.of_nat (Player.id player)))
  /\ split_by_first_mention (Message.mk (create_mention player ++ rest) clean author)
     = Ok (create_mention player, PyStr.strip rest).
Proof.
  split; [apply is_bot_mention_bang|].
  unfold create_mention.
  replace (("<@!" ++ PyStr.of_nat (Player.id player) ++ ">") ++ rest)
    with (("<@!" ++ PyStr.of_nat (Player.id player)) ++ ">" ++ rest).
  - replace ("<@!" ++ PyStr.of_nat (Player.id player) ++ ">")
      with (("<@!" ++ PyStr.of_nat (Player.id player)) ++ ">")
      by (rewrite PyStrFacts.append_assoc; reflexivity).
    apply split_by_first_mention_build; [reflexivity|].
    rewrite PyStrMore.contains_char_app.
    rewrite PyStrMore.of_nat_no_char by reflexivity. reflexivity.
  - rewrite !PyStrFacts.append_assoc. reflexivity.
Qed.



(** ** Applicability *)

(** X4: a message that starts with "<@!ID>" is handled by a
    mention-triggered handler exactly when ID is the client id and the rest
    of the message, stripped and in lower case, starts with one of the
    keywords in lower case. *)
Theorem should_handle_mention_command (E : Env) (keywords : list string)
  (id rest clean : string) (author : Player.t) :
  PyStr.contains_char ">" id = false ->
  let message := Message.mk ("<@!" ++ id ++ ">" ++ rest) clean author in
  (CLIENT_ID = Some id ->
   MentionMessageHandler.should_handle keywords message
   = Ok (existsb (fun kw => PyStr.startswith (PyStr.lower (PyStr.strip rest))
                                             (PyStr.lower kw))
                 keywords))
  /\ (CLIENT_ID <> Some id ->
      MentionMessageHandler.should_handle keywords message = Ok false).
Proof.
  intros Hid message.
  assert (Hsplit : split_by_first_mention message
                   = Ok ("<@!" ++ id ++ ">", PyStr.strip rest)).
  { subst message.
    replace ("<@!" ++ id ++ ">" ++ rest) with (("<@!" ++ id) ++ ">" ++ rest)
      by (rewrite !PyStrFacts.append_assoc; reflexivity).
    replace ("<@!" ++ id ++ ">") with (("<@!" ++ id) ++ ">")
      by (rewrite PyStrFacts.append_assoc; reflexivity).
    apply split_by_first_mention_build; [reflexivity|exact Hid]. }
  rewrite (should_handle_after_split E _ _ _ _ Hsplit).
  split; intros Hc.
  - apply is_bot_mention_bang in Hc. now rewrite Hc.
  - destruct (is_bot_mention ("<@!" ++ id ++ ">")) eqn:Hb; [|reflexivity].
    apply is_bot_mention_bang in Hb. contradiction.
Qed.

Lemma should_handle_mention_command_witness :
  MentionMessageHandler.should_handle (E:=SpecModel.env) StatusHandler.keywords
    (Message.mk ("<@!" ++ "42" ++ ">" ++ "  STATUS please") "" SpecModel.alice)
  = Ok true.
Proof.
  apply (should_handle_mention_command SpecModel.env StatusHandler.keywords
           "42" "  STATUS please" "" SpecModel.alice); reflexivity.
Defined.

(** X5: a message that does not start with "<@" has the empty mention, and
    the empty mention is the bot's only when the configured client id is the
    empty string: with any other client id, or none, no mention-triggered
    handler applies to such a message; with the empty client id every
    message that starts with a keyword is handled. *)
Theorem should_handle_without_mention (E : Env) (keywords : list string)
  (message : Message.t) :
  PyStr.startswith (Message.content message) "<@" = false ->
  (CLIENT_ID <> Some "" ->
   MentionMessageHandler.should_handle keywords message = Ok false)
  /\ (CLIENT_ID = Some "" ->
      MentionMessageHandler.should_handle keywords message
      = Ok (existsb (fun kw => PyStr.startswith (PyStr.lower (Message.content message))
                                                (PyStr.lower kw))
                    keywords)).
Proof.
  intros Hstart.
  assert (Hsplit : split_by_first_mention message = Ok ("", Message.content message)).
  { unfold split_by_first_mention. now rewrite Hstart. }
  rewrite (should_handle_after_split E _ _ _ _ Hsplit).
  unfold is_bot_mention. cbn.
  split; intros Hc.
  - destruct CLIENT_ID as [c|]; [|reflexivity].
    destruct c; [now contradiction Hc | reflexivity].
  - now rewrite Hc.
Qed.

Lemma should_handle_without_mention_witness :
  MentionMessageHandler.should_handle (E:=SpecModel.env) StatusHandler.keywords
    (SpecModel.msg SpecModel.alice "status") = Ok false.
Proof.
  apply (should_handle_without_mention SpecModel.env StatusHandler.keywords
           (SpecModel.msg SpecModel.alice "status")).
  - reflexivity.
  - discriminate.
Defined.

Lemma starts_with_role (s : string) :
  PyStr.startswith s "<@&" = true ->
  exists tail, s = String "<" (String "@" (String "&" tail)).
Proof.
  unfold PyStr.startswith. intros H.
  destruct s as [|c0 s]; [discriminate|]. rewrite PyStrMore.prefix_cons in H.
  destruct (ascii_dec "<" c0) as [<-|]; [|discriminate].
  destruct s as [|c1 s]; [discriminate|]. rewrite PyStrMore.prefix_cons in H.
  destruct (ascii_dec "@" c1) as [<-|]; [|discriminate].
  destruct s as [|c2 s]; [discriminate|]. rewrite PyStrMore.prefix_cons in H.
  destruct (ascii_dec "&" c2) as [<-|]; [|discriminate].
  now exists s.
Qed.

Lemma slice_role_mention (t : string) :
  t <> "" -> exists r, slice_but_last 2 ("<@&" ++ t) = String "&" r.
Proof.
  destruct t as [|c t]; [congruence|]. intros _.
  unfold slice_but_last. cbn [append String.length].
  replace (S (S (S (S (String.length t)))) - 1) with (S (S (S (String.length t)))) by lia.
  cbn [PyStr.take PyStr.drop]. eauto.
Qed.

Lemma role_mention_not_bot (E : Env) (keywords : list string)
  (message : Message.t) :
  PyStr.startswith (Message.content message) "<@&" = true ->
  (forall client_id, CLIENT_ID = Some client_id -> PyStr.startswith client_id "&" = false) ->
  MentionMessageHandler.should_handle keywords message <> Ok true.
Proof.
  intros Hrole Hid.
  unfold MentionMessageHandler.should_handle, split_by_first_mention, PyStr.index.
  destruct (starts_with_role _ Hrole) as [tail ->].
  change (PyStr.startswith (String "<" (String "@" (String "&" tail))) "<@") with true.
  cbv iota.
  cbn [PyStr.find_char]. change (Ascii.eqb "<" ">") with false.
  change (Ascii.eqb "@" ">") with false. change (Ascii.eqb "&" ">") with false.
  cbv iota.
  destruct (PyStr.find_char ">" tail) as [j|] eqn:Hj; cbn [option_map]; [|discriminate].
  cbv zeta.
  replace (S (S (S j)) + 1) with (S (S (S (S j)))) by lia.
  change (PyStr.take (S (S (S (S j)))) (String "<" (String "@" (String "&" tail))))
    with ("<@&" ++ PyStr.take (S j) tail).
  assert (Hne : PyStr.take (S j) tail <> "").
  { destruct tail; [discriminate Hj | discriminate]. }
  destruct (slice_role_mention _ Hne) as [r Hr].
  unfold is_bot_mention.
  assert (Hs : PyStr.startswith ("<@&" ++ PyStr.take (S j) tail) "<@!" = false).
  { unfold PyStr.startswith. cbn [append]. rewrite !PyStrMore.prefix_cons.
    destruct (ascii_dec "<" "<"); [|reflexivity].
    destruct (ascii_dec "@" "@"); [|reflexivity].
    destruct (ascii_dec "!" "&"); [discriminate|reflexivity]. }
  rewrite Hs, Hr.
  destruct CLIENT_ID as [client_id|] eqn:Hc; [|discriminate].
  destruct (String.eqb (String "&" r) client_id) eqn:He; [|discriminate].
  apply String.eqb_eq in He. subst client_id.
  specialize (Hid _ eq_refl).
  unfold PyStr.startswith in Hid.
  rewrite PyStrMore.prefix_cons, PyStrMore.prefix_nil in Hid.
  destruct (ascii_dec "&" "&"); [discriminate | congruence].
Qed.

(** X6: a message that starts with a role mention "<@&..." is not taken
    for a mention of the bot, whatever follows, as long as the client id
    does not itself start with "&": no mention-triggered handler answers
    true for it.  When its cleaned content has the words "Play Register",
    the AccidentalRoleMention handler applies to it. *)
Theorem should_handle_role_mention (E : Env) (keywords : list string)
  (message : Message.t) :
  PyStr.startswith (Message.content message) "<@&" = true ->
  (forall client_id, CLIENT_ID = Some client_id -> PyStr.startswith client_id "&" = false) ->
  MentionMessageHandler.should_handle keywords message <> Ok true
  /\ AccidentalRoleMentionHandler.should_handle message
     = PyStr.contains "Play Register" (Message.clean_content message).
Proof.
  intros Hrole Hid. split.
  - now apply role_mention_not_bot.
  - unfold AccidentalRoleMentionHandler.should_handle.
    rewrite (contains_of_prefix "<@&" _ Hrole). apply andb_true_r.
Qed.

Lemma should_handle_role_mention_witness :
  MentionMessageHandler.should_handle (E:=SpecModel.env) StatusHandler.keywords
    (Message.mk "<@&42> status" "@Play Register status" SpecModel.alice) <> Ok true
  /\ AccidentalRoleMentionHandler.should_handle
       (Message.mk "<@&42> status" "@Play Register status" SpecModel.alice)
     = PyStr.contains "Play Register" "@Play Register status".
Proof.
  apply (should_handle_role_mention SpecModel.env StatusHandler.keywords
           (Message.mk "<@&42> status" "@Play Register status" SpecModel.alice)).
  - reflexivity.
  - intros client_id [= <-]. reflexivity.
Defined.

(** A text that starts with a keyword starts with every prefix of it. *)
Lemma startswith_shadow (r long short : string) :
  String.prefix short long = true ->
  PyStr.startswith r long || PyStr.startswith r short = PyStr.startswith r short.
Proof.
  intros Hp. unfold PyStr.startswith.
  destruct (String.prefix long r) eqn:Hl; [|reflexivity].
  now rewrite (PyStrMore.prefix_trans _ _ _ Hp Hl).
Qed.

(** X7: the keyword "p" of the Ping handler makes "ping" redundant for
    applicability: the handler applies exactly when a handler with the one
    keyword "p" would, that is to every message to the bot whose remainder
    starts with "p" or "P". *)
Theorem PingHandler_applies_on_p (E : Env) (message : Message.t) :
  PingHandler.should_handle message
  = MentionMessageHandler.should_handle ["p"] message.
Proof.
  unfold PingHandler.should_handle, MentionMessageHandler.should_handle.
  destruct (split_by_first_mention message) as [[mention remainder]|e]; [|reflexivity].
  unfold PingHandler.keywords. cbn [existsb].
  now rewrite orb_assoc, (startswith_shadow _ (PyStr.lower "ping") (PyStr.lower "p")).
Qed.

(** X8: every message the QueryGames handler applies to is one the
    QueryProperty handler applies to as well: "query" is a prefix of
    "query games". *)
Theorem QueryGameHandler_within_QueryPropertyHandler (E : Env) (message : Message.t) :
  QueryGameHandler.should_handle message = Ok true ->
  QueryPropertyHandler.should_handle message = Ok true.
Proof.
  unfold QueryGameHandler.should_handle, QueryPropertyHandler.should_handle,
    MentionMessageHandler.should_handle.
  destruct (split_by_first_mention message) as [[mention remainder]|e]; [|discriminate].
  unfold QueryGameHandler.keywords, QueryPropertyHandler.keywords. cbn [existsb].
  rewrite !orb_false_r. intros [= H]. apply andb_prop in H as [Hbot Hkw].
  rewrite Hbot. unfold PyStr.startswith in *.
  now rewrite (PyStrMore.prefix_trans (PyStr.lower "query") (PyStr.lower "query games")
                 _ eq_refl Hkw).
Qed.

Lemma QueryGameHandler_within_QueryPropertyHandler_witness :
  QueryPropertyHandler.should_handle (E:=SpecModel.env)
    (SpecModel.msg SpecModel.alice "<@!42> Query Games") = Ok true.
Proof.
  apply (QueryGameHandler_within_QueryPropertyHandler SpecModel.env
           (SpecModel.msg SpecModel.alice "<@!42> Query Games")).
  reflexivity.
Defined.

(** X9: the Same handler applies exactly to the messages that start with
    "same" in any case; the fragment "same to" adds none. *)
Theorem SameHandler_applies_on_same (message : Message.t) :
  SameHandler.should_handle message
  = PyStr.startswith (PyStr.lower (Message.content message)) "same".
Proof.
  unfold SameHandler.should_handle, ContentBasedHandler.should_handle,
    SameHandler.fragments.
  cbn [existsb]. rewrite orb_false_r.
  apply (startswith_shadow _ (PyStr.lower "same to") (PyStr.lower "same")).
  reflexivity.
Qed.

(** ** Keywords and tokens *)

Module RemoveFirst.
Import PyStr.

Lemma prefix_split (p s : string) :
  String.prefix p s = true -> s = p ++ drop (String.length p) s.
Proof.
  revert s; induction p as [|x p IH]; intros s H; [now destruct s|].
  destruct s as [|y s]; [discriminate|].
  rewrite PyStrMore.prefix_cons in H.
  destruct (ascii_dec x y) as [->|]; [|discriminate].
  simpl. f_equal. now apply IH.
Qed.

(** Where [old] occurs, [remove_first] cuts out its first occurrence. *)
Lemma remove_first_present (old s : string) :
  contains old s = true ->
  exists a b,
    s = a ++ old ++ b
    /\ remove_first old s = a ++ b
    /\ (forall a1 a2, a = a1 ++ a2 -> a2 <> "" ->
                      String.prefix old (a2 ++ old ++ b) = false).
Proof.
  induction s as [|c s IH]; intros H.
  - cbn [contains] in H. rewrite orb_false_r in H.
    exists "", "". destruct old as [|x old]; [|discriminate].
    repeat split. intros a1 a2 Ha Hne. destruct a1, a2; try discriminate.
    now contradiction Hne.
  - cbn [contains remove_first] in *.
    destruct (String.prefix old (String c s)) eqn:Hp.
    + exists "", (drop (String.length old) (String c s)).
      repeat split.
      * now apply prefix_split.
      * intros a1 a2 Ha Hne. destruct a1, a2; try discriminate.
        now contradiction Hne.
    + cbn [orb] in H. destruct (IH H) as (a & b & Hs & Hr & Hfirst).
      exists (String c a), b. repeat split.
      * simpl. now rewrite <- Hs.
      * simpl. now rewrite Hr.
      * intros a1 a2 Ha Hne. destruct a1 as [|x a1].
        -- simpl in Ha. subst a2. simpl. now rewrite <- Hs.
        -- injection Ha as _ Ha. now apply (Hfirst a1 a2).
Qed.

(** [remove_first] leaves the text as it is exactly when there is nothing
    to remove: the keyword is empty or does not occur. *)
Lemma remove_first_same (old s : string) :
  String.eqb (remove_first old s) s = negb (negb (String.eqb old "") && contains old s).
Proof.
  destruct (String.eqb old "") eqn:He.
  - apply String.eqb_eq in He. subst old. cbn [negb andb].
    apply String.eqb_eq. destruct s; reflexivity.
  - cbn [negb andb]. destruct (contains old s) eqn:Hc; cbn [negb].
    + apply String.eqb_neq. intros Heq.
      destruct (remove_first_present _ _ Hc) as (a & b & Hs & Hr & _).
      assert (Hlen : String.length (remove_first old s) = String.length s)
        by now rewrite Heq.
      rewrite Hr in Hlen. rewrite Hs in Hlen.
      rewrite !PyStrFacts.length_append in Hlen.
      destruct old; [discriminate He|]. simpl in Hlen. lia.
    + apply String.eqb_eq. now apply remove_first_absent.
Qed.

End RemoveFirst.

(** X10: [split_string_by_keywords] takes the first keyword of the list
    that is not empty and occurs literally in the text, and returns it with
    the stripped text from which its first occurrence is removed; when there
    is no such keyword it returns none and the text unchanged. *)
Theorem split_string_by_keywords_first_match (keywords : list string) (text : string) :
  MentionMessageHandler.split_string_by_keywords keywords text
  = match find (fun kw => negb (String.eqb kw "") && PyStr.contains kw text) keywords with
    | Some keyword => (Some keyword, PyStr.strip (PyStr.remove_first keyword text))
    | None => (None, text)
    end.
Proof.
  induction keywords as [|kw rest IH]; cbn [MentionMessageHandler.split_string_by_keywords find];
    [reflexivity|].
  rewrite RemoveFirst.remove_first_same, negb_involutive.
  destruct (negb (String.eqb kw "") && PyStr.contains kw text); [reflexivity | exact IH].
Qed.

(** X11: when [split_string_by_keywords] finds a keyword, the keyword is
    one of the list, the text is some [a], the keyword and some [b], with no
    occurrence of the keyword starting earlier, and the remainder returned is
    [a] and [b] joined and stripped: only the first occurrence is removed. *)
Theorem split_string_by_keywords_found (keywords : list string) (text keyword remainder : string) :
  MentionMessageHandler.split_string_by_keywords keywords text = (Some keyword, remainder) ->
  In keyword keywords
  /\ keyword <> ""
  /\ exists a b,
       text = a ++ keyword ++ b
       /\ remainder = PyStr.strip (a ++ b)
       /\ (forall a1 a2, a = a1 ++ a2 -> a2 <> "" ->
                         String.prefix keyword (a2 ++ keyword ++ b) = false).
Proof.
  induction keywords as [|kw rest IH];
    cbn [MentionMessageHandler.split_string_by_keywords]; [discriminate|].
  rewrite RemoveFirst.remove_first_same, negb_involutive.
  destruct (negb (String.eqb kw "") && PyStr.contains kw text) eqn:Hkw.
  - intros [= <- <-]. apply andb_prop in Hkw as [Hne Hc].
    split; [now left|split].
    + intros ->. discriminate Hne.
    + destruct (RemoveFirst.remove_first_present _ _ Hc) as (a & b & Hs & Hr & Hfirst).
      exists a, b. now rewrite Hr.
  - intros H. destruct (IH H) as (Hin & Hrest). split; [now right | exact Hrest].
Qed.

Lemma split_string_by_keywords_found_witness :
  In "query" QueryPropertyHandler.keywords
  /\ "query" <> ""
  /\ exists a b,
       "a query b query" = a ++ "query" ++ b
       /\ "a  b query" = PyStr.strip (a ++ b)
       /\ (forall a1 a2, a = a1 ++ a2 -> a2 <> "" ->
                         String.prefix "query" (a2 ++ "query" ++ b) = false).
Proof.
  apply (split_string_by_keywords_found QueryPropertyHandler.keywords
           "a query b query" "query" "a  b query").
  reflexivity.
Defined.

Module SplitFacts.
Import PyStr.

Lemma split_absent (sep : ascii) (s : string) :
  contains_char sep s = false -> split sep s = [s].
Proof.
  induction s as [|c s IH]; cbn [split contains_char]; intros H; [reflexivity|].
  apply orb_false_elim in H as [Hc Hs]. rewrite Hc, (IH Hs). reflexivity.
Qed.

Lemma split_app (sep : ascii) (a t : string) :
  contains_char sep a = false ->
  split sep (a ++ String sep t) = a :: split sep t.
Proof.
  induction a as [|c a IH]; cbn [split contains_char append]; intros H.
  - now rewrite Ascii.eqb_refl.
  - apply orb_false_elim in H as [Hc Ha]. rewrite Hc, (IH Ha). reflexivity.
Qed.

(** The first piece of a split: the text up to the first separator. *)
Lemma split_head (sep : ascii) (s : string) :
  exists b pieces tail,
    split sep s = b :: pieces
    /\ contains_char sep b = false
    /\ s = b ++ tail
    /\ (tail = "" \/ exists t, tail = String sep t).
Proof.
  induction s as [|c s IH]; cbn [split].
  - exists "", [], "". repeat split; auto.
  - destruct (Ascii.eqb c sep) eqn:Hc.
    + apply Ascii.eqb_eq in Hc. subst c.
      exists "", (split sep s), (String sep s). repeat split; eauto.
    + destruct IH as (b & pieces & tail & Hs & Hb & Heq & Htail).
      rewrite Hs. exists (String c b), pieces, tail.
      cbn [contains_char append]. rewrite Hc, Hb, <- Heq. repeat split; auto.
Qed.

End SplitFacts.

(** X12: the QueryProperty handler reads its two arguments as the first two
    pieces of the text (the remainder after the mention, with the keyword
    removed where it occurs) cut at single spaces.  A text with no space
    gives [ValueError]; otherwise the attribute is the text before the first
    space and the game name the text between the first space and the next,
    which is empty when two spaces follow each other. *)
Theorem QueryPropertyHandler_parse_tokens (message : Message.t) (mention remainder : string) :
  split_by_first_mention message = Ok (mention, remainder) ->
  let text := snd (MentionMessageHandler.split_string_by_keywords
                     QueryPropertyHandler.keywords remainder) in
  (PyStr.contains_char " " text = false ->
   QueryPropertyHandler.parse message = Raise ValueError)
  /\ (PyStr.contains_char " " text = true ->
      exists attribute game_name tail,
        QueryPropertyHandler.parse message = Ok (attribute, game_name)
        /\ text = attribute ++ " " ++ game_name ++ tail
        /\ PyStr.contains_char " " attribute = false
        /\ PyStr.contains_char " " game_name = false
        /\ (tail = "" \/ exists t, tail = String " " t)).
Proof.
  intros Hsplit text. unfold QueryPropertyHandler.parse. rewrite Hsplit.
  destruct (MentionMessageHandler.split_string_by_keywords
              QueryPropertyHandler.keywords remainder) as [found rest] eqn:Hkw.
  subst text. cbn [snd]. split; intros Hsp.
  - now rewrite (SplitFacts.split_absent _ _ Hsp).
  - destruct (SplitFacts.split_head " " rest) as (a & pieces & tail & _ & Ha & Heq & Htail).
    destruct Htail as [->|[t ->]].
    + rewrite PyStrMore.append_nil_r in Heq. congruence.
    + destruct (SplitFacts.split_head " " t) as (b & pieces' & tail' & Hs' & Hb & Heq' & Htail').
      exists a, b, tail'. rewrite Heq at 1.
      rewrite (SplitFacts.split_app _ _ _ Ha), Hs'.
      repeat split; auto. now rewrite Heq, Heq'.
Qed.

Lemma QueryPropertyHandler_parse_tokens_witness :
  QueryPropertyHandler.parse (SpecModel.msg SpecModel.alice "<@!42> query aliases")
  = Raise ValueError.
Proof.
  apply (QueryPropertyHandler_parse_tokens
           (SpecModel.msg SpecModel.alice "<@!42> query aliases") "<@!42>" "query aliases");
    reflexivity.
Defined.

(** ** The responses of the multi-game handlers *)

Lemma get_all_responses_looked_up (E : Env) (DB : Type)
  (self : GameExtractionMixin.t DB) (message : Message.t) (db : DB) :
  GameExtractionMixin.get_all_responses self message db
  = match Answers.looked_up (GameExtractionMixin.fragments self) message with
    | [] => GameExtractionMixin.get_all_responses_without_game self message db
    | games =>
        Spec.for_each_game (GameExtractionMixin.get_all_responses_with_game self message)
                           games db
    end.
Proof.
  unfold GameExtractionMixin.get_all_responses, Answers.looked_up.
  rewrite responses_of_plays_spec.
  now destruct (Spec.candidates _).
Qed.

Lemma for_each_game_clear {DB : Type} {R : RosterStore DB} (message : Message.t)
  (games : list (option Game.t)) :
  forall db : DB,
    Spec.for_each_game (ClearHandler.get_all_responses_with_game message) games db
    = Ok (map Answers.clear_answer games,
          fold_left (fun db game => clear_game game db) (Answers.resolved games) db).
Proof.
  induction games as [|game rest IH]; intros db; [reflexivity|].
  cbn [Spec.for_each_game]. unfold bind at 1.
  destruct game as [g|]; cbn; unfold bind; rewrite IH; reflexivity.
Qed.

(** X13: the Clear handler never raises.  It answers once for each
    non-empty name of the message, in order, "Cleared <game>" for a name the
    catalog knows and "No game specified!" for one it does not, and the store
    it leaves is the one in which the known games have been cleared, in that
    order. *)
Theorem ClearHandler_answers (E : Env) (DB : Type) (R : RosterStore DB)
  (message : Message.t) (db : DB) :
  let games := Answers.looked_up ClearHandler.keywords message in
  ClearHandler.get_all_responses message db
  = Ok (map Answers.clear_answer games,
        fold_left (fun db game => clear_game game db) (Answers.resolved games) db).
Proof.
  intros games. unfold ClearHandler.get_all_responses.
  rewrite get_all_responses_looked_up.
  change (Answers.looked_up (GameExtractionMixin.fragments ClearHandler.mixin) message)
    with games.
  destruct games as [|game rest] eqn:Hg; [reflexivity|].
  apply for_each_game_clear.
Qed.

Lemma for_each_game_returns {DB : Type} (generator : option Game.t -> M DB (list string))
  (games : list (option Game.t)) :
  (forall game db, In game games -> is_ok (generator game db) = true) ->
  forall db, is_ok (Spec.for_each_game generator games db) = true.
Proof.
  induction games as [|game rest IH]; intros Hgen db; [reflexivity|].
  cbn [Spec.for_each_game]. unfold bind at 1.
  pose proof (Hgen game db (or_introl eq_refl)) as Hg.
  destruct (generator game db) as [[r db1]|e]; [|discriminate].
  unfold bind. 
  assert (Hrest : is_ok (Spec.for_each_game generator rest db1) = true).
  { apply IH. intros g d Hin. apply Hgen. now right. }
  destruct (Spec.for_each_game generator rest db1) as [[rs db2]|e];
    [reflexivity|discriminate].
Qed.

(** X14: the Same handler never raises, whatever the message and the
    store, with or without game names and whether or not the catalog knows
    them. *)
Theorem SameHandler_never_raises (E : Env) (DB : Type) (R : RosterStore DB)
  (message : Message.t) (db : DB) :
  is_ok (SameHandler.get_all_responses message db) = true.
Proof.
  unfold SameHandler.get_all_responses. rewrite get_all_responses_looked_up.
  destruct (Answers.looked_up _ message) as [|game rest].
  - cbn [GameExtractionMixin.get_all_responses_without_game SameHandler.mixin].
    unfold SameHandler.get_all_responses_without_game, bind, gets.
    destruct (get_last_would_plays_at_same_time db); [reflexivity|].
    rewrite record_each_spec, ready_each_spec. reflexivity.
  - apply for_each_game_returns. intros g d _.
    cbn [GameExtractionMixin.get_all_responses_with_game SameHandler.mixin].
    unfold SameHandler.get_all_responses_with_game,
      SameHandler.get_all_responses_with_optional_game, bind, gets.
    destruct (get_last_would_play g d); [|reflexivity].
    now destruct (record_would_play _ _ d).
Qed.

Lemma SameHandler_with_game_nothing {DB : Type} {R : RosterStore DB}
  (message : Message.t) (db : DB) (game : option Game.t) :
  get_last_would_play game db = None ->
  SameHandler.get_all_responses_with_game message game db = Ok ([], db).
Proof.
  intros Hgame.
  unfold SameHandler.get_all_responses_with_game,
    SameHandler.get_all_responses_with_optional_game, bind, gets.
  now rewrite Hgame.
Qed.

Lemma for_each_game_same_nothing {DB : Type} {R : RosterStore DB}
  (message : Message.t) (db : DB) (games : list (option Game.t)) :
  Forall (fun game => get_last_would_play game db = None) games ->
  Spec.for_each_game (SameHandler.get_all_responses_with_game message) games db
  = Ok ([], db).
Proof.
  induction 1 as [|game rest Hgame _ IH]; [reflexivity|].
  cbn [Spec.for_each_game]. unfold bind at 1.
  rewrite (SameHandler_with_game_nothing _ _ _ Hgame).
  unfold bind. now rewrite IH.
Qed.

(** X15: a "same" that names games does nothing when none of them has a
    would-play on record: no response, and the store is as before. *)
Theorem SameHandler_nothing_on_record (E : Env) (DB : Type) (R : RosterStore DB)
  (message : Message.t) (db : DB) :
  Answers.looked_up SameHandler.fragments message <> [] ->
  Forall (fun game => get_last_would_play game db = None)
         (Answers.looked_up SameHandler.fragments message) ->
  SameHandler.get_all_responses message db = Ok ([], db).
Proof.
  intros Hne Hnone. unfold SameHandler.get_all_responses.
  rewrite get_all_responses_looked_up.
  change (Answers.looked_up (GameExtractionMixin.fragments SameHandler.mixin) message)
    with (Answers.looked_up SameHandler.fragments message).
  destruct (Answers.looked_up SameHandler.fragments message) as [|game rest] eqn:Hg;
    [contradiction|].
  now apply for_each_game_same_nothing.
Qed.

Lemma SameHandler_nothing_on_record_witness :
  SameHandler.get_all_responses (E:=SpecModel.env) (R:=SpecModel.roster)
    (SpecModel.msg SpecModel.bob "same chess/go") SpecModel.empty
  = Ok ([], SpecModel.empty).
Proof.
  apply (SameHandler_nothing_on_record SpecModel.env SpecModel.Roster SpecModel.roster
           (SpecModel.msg SpecModel.bob "same chess/go") SpecModel.empty).
  - discriminate.
  - repeat constructor.
Defined.

Lemma forallb_is_resolved_false (games : list (option Game.t)) :
  forallb Answers.is_resolved games = false -> In None games.
Proof.
  induction games as [|[g|] rest IH]; cbn; intros H;
    [discriminate | right; now apply IH | now left].
Qed.

Lemma for_each_game_ping {DB : Type} {R : RosterStore DB} (message : Message.t)
  (games : list (option Game.t)) :
  forallb Answers.is_resolved games = true ->
  forall db : DB,
  exists responses,
    Spec.for_each_game (PingHandler.get_all_responses_with_game message) games db
    = Ok (responses,
          fold_left (fun db game => clear_game game db) (Answers.resolved games) db)
    /\ List.length responses = List.length games.
Proof.
  induction games as [|[g|] rest IH]; cbn [forallb Answers.is_resolved andb];
    intros Hres db; [now exists [] | | discriminate].
  cbn [Spec.for_each_game]. unfold bind at 1. cbn.
  destruct (IH Hres (clear_game g db)) as (rs & Hrs & Hlen).
  unfold bind. rewrite Hrs. eexists. split; [reflexivity|].
  cbn. now rewrite Hlen.
Qed.

(** X16: the Ping handler completes exactly when the catalog knows every
    non-empty name of the message.  It then answers with one line for each
    name and leaves the store in which these games have been cleared; it
    raises [AttributeError] otherwise. *)
Theorem PingHandler_completes (E : Env) (DB : Type) (R : RosterStore DB)
  (message : Message.t) (db : DB) :
  let games := Answers.looked_up PingHandler.keywords message in
  (forallb Answers.is_resolved games = true ->
   exists responses,
     PingHandler.get_all_responses message db
     = Ok (responses,
           fold_left (fun db game => clear_game game db) (Answers.resolved games) db)
     /\ List.length responses = List.length games)
  /\ (forallb Answers.is_resolved games = false ->
      PingHandler.get_all_responses message db = Raise AttributeError).
Proof.
  intros games. unfold PingHandler.get_all_responses.
  rewrite get_all_responses_looked_up.
  change (Answers.looked_up (GameExtractionMixin.fragments PingHandler.mixin) message)
    with games.
  split; intros Hres.
  - destruct games as [|game rest] eqn:Hg; [now exists []|].
    now apply for_each_game_ping.
  - destruct games as [|game rest] eqn:Hg; [discriminate|].
    apply PingHandler_for_each_game_unresolved.
    now apply forallb_is_resolved_false.
Qed.

Lemma WouldPlayHandler_with_game_resolved {DB : Type} {R : RosterStore DB}
  (message : Message.t) (g : Game.t) (db : DB) :
  let would_play := fst (record_would_play (Message.author message) g db) in
  let db1 := snd (record_would_play (Message.author message) g db) in
  WouldPlayHandler.get_all_responses_with_game message (Some g) db
  = Ok (WouldPlayHandler.would_play_line (WouldPlay.user would_play) g
          (List.length (get_available_players g db1))
        :: (if is_ready_to_play g db1 then get_ready_messages g db1 else []),
        db1).
Proof.
  unfold WouldPlayHandler.get_all_responses_with_game, bind, gets,
    get_any_ready_messages, ret.
  now destruct (record_would_play (Message.author message) g db).
Qed.

Lemma for_each_game_would_play {DB : Type} {R : RosterStore DB} (message : Message.t)
  (games : list (option Game.t)) :
  forallb Answers.is_resolved games = true ->
  forall db : DB,
  exists responses,
    Spec.for_each_game (WouldPlayHandler.get_all_responses_with_game message) games db
    = Ok (responses,
          fold_left (fun db game => snd (record_would_play (Message.author message) game db))
                    (Answers.resolved games) db)
    /\ List.length games <= List.length responses.
Proof.
  induction games as [|[g|] rest IH]; cbn [forallb Answers.is_resolved andb];
    intros Hres db; [now exists [] | | discriminate].
  cbn [Spec.for_each_game]. unfold bind at 1.
  rewrite WouldPlayHandler_with_game_resolved. cbv zeta.
  destruct (IH Hres (snd (record_would_play (Message.author message) g db)))
    as (rs & Hrs & Hlen).
  unfold bind. rewrite Hrs. eexists. split; [reflexivity|].
  unfold ret. cbn [List.length app]. rewrite length_app. lia.
Qed.

Lemma for_each_game_would_play_unresolved {DB : Type} {R : RosterStore DB}
  (message : Message.t) (games : list (option Game.t)) :
  In None games ->
  forall db : DB,
    is_ok (Spec.for_each_game (WouldPlayHandler.get_all_responses_with_game message)
             games db) = false.
Proof.
  induction games as [|[g|] rest IH]; intros Hin db; [contradiction| |reflexivity].
  destruct Hin as [Hin|Hin]; [discriminate|].
  cbn [Spec.for_each_game]. unfold bind at 1.
  rewrite WouldPlayHandler_with_game_resolved. cbv zeta.
  specialize (IH Hin (snd (record_would_play (Message.author message) g db))).
  unfold bind.
  now destruct (Spec.for_each_game _ rest _) as [[rs db2]|e].
Qed.

(** X17: the WouldPlay handler completes exactly when the catalog knows
    every non-empty name of the message.  It then has recorded a would-play
    of the author for each of these games, in order, and answers with at
    least one line for each; otherwise it raises and gives no response. *)
Theorem WouldPlayHandler_completes (E : Env) (DB : Type) (R : RosterStore DB)
  (message : Message.t) (db : DB) :
  let games := Answers.looked_up WouldPlayHandler.fragments message in
  is_ok (WouldPlayHandler.get_all_responses message db) = forallb Answers.is_resolved games
  /\ (forallb Answers.is_resolved games = true ->
      exists responses,
        WouldPlayHandler.get_all_responses message db
        = Ok (responses,
              fold_left
                (fun db game => snd (record_would_play (Message.author message) game db))
                (Answers.resolved games) db)
        /\ List.length games <= List.length responses).
Proof.
  intros games. unfold WouldPlayHandler.get_all_responses.
  rewrite get_all_responses_looked_up.
  change (Answers.looked_up (GameExtractionMixin.fragments WouldPlayHandler.mixin) message)
    with games.
  clearbody games.
  destruct games as [|game rest]; [split; [reflexivity | intros _; now exists []]|].
  destruct (forallb Answers.is_resolved (game :: rest)) eqn:Hres.
  - destruct (for_each_game_would_play message (game :: rest) Hres db)
      as (rs & Hrs & Hlen).
    cbn [GameExtractionMixin.get_all_responses_with_game WouldPlayHandler.mixin].
    rewrite Hrs. split; [reflexivity | intros _; now exists rs].
  - split; [|discriminate].
    now apply for_each_game_would_play_unresolved, forallb_is_resolved_false.
Qed.

(** X18: a handler that keeps the mixin's own
    [get_all_responses_without_game], as WouldPlay and Ping do, answers
    nothing and leaves the store alone when the message names no game; it
    does not raise and does not call its per-game generator. *)
Theorem default_without_game_silent (E : Env) (DB : Type) (fragments : list string)
  (with_game : Message.t -> option Game.t -> M DB (list string))
  (message : Message.t) (db : DB) :
  PyStr.any
    (PyStr.split GameExtractionMixin.multi_game_delimiter
       (extract_remainder_after_fragments fragments (Message.content message))) = false ->
  GameExtractionMixin.get_all_responses
    (GameExtractionMixin.mk fragments with_game GameExtractionMixin.default_without_game)
    message db
  = Ok ([], db).
Proof.
  intros Hany. unfold GameExtractionMixin.get_all_responses.
  rewrite responses_of_plays_spec. cbn [GameExtractionMixin.fragments].
  apply any_candidates in Hany. now rewrite Hany.
Qed.

Lemma default_without_game_silent_witness :
  WouldPlayHandler.get_all_responses (E:=SpecModel.env) (R:=SpecModel.roster)
    (SpecModel.msg SpecModel.alice "I'd play ") SpecModel.empty
  = Ok ([], SpecModel.empty).
Proof.
  apply (default_without_game_silent SpecModel.env SpecModel.Roster
           WouldPlayHandler.fragments
           (WouldPlayHandler.get_all_responses_with_game (R:=SpecModel.roster))
           (SpecModel.msg SpecModel.alice "I'd play ") SpecModel.empty).
  reflexivity.
Defined.

(** ** Several games in one message *)

Lemma split_concat (sep : ascii) (a b : string) :
  PyStr.split sep (a ++ String sep b) = (PyStr.split sep a ++ PyStr.split sep b)%list.
Proof.
  induction a as [|c a IH]; cbn [PyStr.split append].
  - now rewrite Ascii.eqb_refl.
  - destruct (Ascii.eqb c sep); rewrite IH; [reflexivity|].
    destruct (PyStr.split sep a) as [|w ws] eqn:Hs;
      [now apply PyStrFacts.split_not_nil in Hs | reflexivity].
Qed.

Lemma candidates_concat (plays1 plays2 : string) :
  Spec.candidates (plays1 ++ "/" ++ plays2)
  = (Spec.candidates plays1 ++ Spec.candidates plays2)%list.
Proof.
  unfold Spec.candidates, GameExtractionMixin.multi_game_delimiter.
  change (plays1 ++ "/" ++ plays2) with (plays1 ++ String "/" plays2).
  now rewrite split_concat, filter_app.
Qed.

Lemma for_each_game_app {DB : Type} (generator : option Game.t -> M DB (list string))
  (games1 games2 : list (option Game.t)) :
  forall db : DB,
    Spec.for_each_game generator (games1 ++ games2)%list db
    = (r1 <- Spec.for_each_game generator games1 ;;
       r2 <- Spec.for_each_game generator games2 ;;
       ret (app r1 r2)) db.
Proof.
  induction games1 as [|game rest IH]; intros db.
  - cbn [app Spec.for_each_game]. unfold bind, ret.
    now destruct (Spec.for_each_game generator games2 db) as [[r2 db2]|e].
  - cbn [app Spec.for_each_game]. unfold bind.
    destruct (generator game db) as [[r db1]|e]; [|reflexivity].
    rewrite IH. unfold bind, ret.
    destruct (Spec.for_each_game generator rest db1) as [[r1 db2]|e]; [|reflexivity].
    destruct (Spec.for_each_game generator games2 db2) as [[r2 db3]|e]; [|reflexivity].
    now rewrite app_assoc.
Qed.

(** X19: game names joined by "/" are handled one after the other: when
    both sides of a "/" name a game, the responses to the whole are the
    responses to the left side followed by the responses to the right side,
    the right side being handled in the store the left side leaves, and an
    exception on either side is the exception of the whole. *)
Theorem responses_of_plays_concat (E : Env) (DB : Type)
  (self : GameExtractionMixin.t DB) (message : Message.t)
  (plays1 plays2 : string) (db : DB) :
  Spec.candidates plays1 <> [] ->
  Spec.candidates plays2 <> [] ->
  GameExtractionMixin.responses_of_plays self message (plays1 ++ "/" ++ plays2) db
  = (r1 <- GameExtractionMixin.responses_of_plays self message plays1 ;;
     r2 <- GameExtractionMixin.responses_of_plays self message plays2 ;;
     ret (app r1 r2)) db.
Proof.
  intros H1 H2.
  unfold bind at 1. rewrite !responses_of_plays_spec, candidates_concat.
  destruct (Spec.candidates plays1) as [|n1 names1] eqn:Hn1; [congruence|].
  rewrite <- Hn1 in *.
  destruct (Spec.candidates plays1 ++ Spec.candidates plays2)%list as [|n names] eqn:Hn.
  - apply app_eq_nil in Hn as [Hn _]. congruence.
  - rewrite <- Hn, map_app, for_each_game_app. unfold bind at 1.
    rewrite Hn1 at 2. rewrite <- Hn1.
    destruct (Spec.for_each_game _ (map lookup_game_by_name_or_alias (Spec.candidates plays1)) db)
      as [[r1 db1]|e]; [|reflexivity].
    unfold bind at 2. rewrite responses_of_plays_spec.
    destruct (Spec.candidates plays2) as [|n2 names2] eqn:Hn2; [congruence|].
    reflexivity.
Qed.

Lemma responses_of_plays_concat_witness :
  GameExtractionMixin.responses_of_plays (E:=SpecModel.env)
    (ClearHandler.mixin (R:=SpecModel.roster))
    (SpecModel.msg SpecModel.alice "clear chess/draughts") ("chess" ++ "/" ++ "draughts")
    SpecModel.empty
  = Ok (["Cleared Chess"; "No game specified!"], SpecModel.empty).
Proof.
  rewrite (responses_of_plays_concat SpecModel.env SpecModel.Roster
             (ClearHandler.mixin (R:=SpecModel.roster))
             (SpecModel.msg SpecModel.alice "clear chess/draughts")
             "chess" "draughts" SpecModel.empty); [reflexivity | discriminate | discriminate].
Defined.

(** ** QueryGames *)

Lemma split_join (sep : ascii) (pieces : list string) :
  pieces <> [] ->
  Forall (fun piece => PyStr.contains_char sep piece = false) pieces ->
  PyStr.split sep (PyStr.join (String sep EmptyString) pieces) = pieces.
Proof.
  intros Hne Hall. induction Hall as [|piece rest Hpiece Hrest IH]; [congruence|].
  destruct rest as [|next rest].
  - cbn [PyStr.join]. now apply SplitFacts.split_absent.
  - change (PyStr.join (String sep "") (piece :: next :: rest))
      with (piece ++ String sep (PyStr.join (String sep "") (next :: rest))).
    rewrite (SplitFacts.split_app _ _ _ Hpiece). f_equal. apply IH. discriminate.
Qed.

(** X20: the reply of the QueryGames handler is one string whose lines
    are the names of the catalog games, in catalog order, whenever the
    catalog is not empty and no name contains a line feed; with an empty
    catalog the reply is one empty string.  The store is not touched. *)
Theorem QueryGameHandler_lines (E : Env) (DB : Type) (message : Message.t) (db : DB) :
  exists reply,
    QueryGameHandler.get_all_responses message db = Ok ([reply], db)
    /\ (games = [] -> reply = "")
    /\ (games <> [] ->
        Forall (fun game => PyStr.contains_char (ascii_of_nat 10) (Game.name game) = false)
               games ->
        PyStr.split (ascii_of_nat 10) reply = map Game.name games).
Proof.
  eexists. split; [reflexivity|]. split.
  - now intros ->.
  - intros Hne Hall. unfold StatusHandler.newline. apply split_join.
    + destruct games; [congruence | discriminate].
    + apply Forall_map. exact Hall.
Qed.

(** ** QueryProperty, end to end *)

Lemma has_space_cons (c : ascii) (s : string) :
  PyStr.has_space (String c s) = false ->
  PyStr.space_width (String c s) = 0 /\ PyStr.has_space s = false.
Proof.
  cbn [PyStr.has_space]. intros H. apply orb_false_elim in H as [Hw Hs].
  apply negb_false_iff, Nat.eqb_eq in Hw. now split.
Qed.

Lemma all_space_without (name : string) :
  name <> "" -> PyStr.has_space name = false -> PyStr.all_space name = false.
Proof.
  intros Hne Hs. destruct name as [|c name]; [congruence|].
  apply has_space_cons in Hs as [Hw _].
  destruct (StripFacts.space_view (String c name)) as [(_ & _ & Ha)|(w & r & Heq & Hc)];
    [now apply Ha|].
  destruct (StripFacts.space_char_front w r Hc) as (Hlen & Hwne & _).
  rewrite <- Heq in Hlen. rewrite Hw in Hlen.
  destruct w; [congruence | discriminate].
Qed.

(** In front of a byte below 128 [all_space] looks at that byte alone. *)
Lemma all_space_plain (c : ascii) (r : string) :
  Nat.ltb (nat_of_ascii c) 128 = true ->
  PyStr.all_space (String c r) = PyStr.isspace c && PyStr.all_space r.
Proof.
  intros Hc. apply Nat.ltb_lt in Hc.
  assert (H2 : forall c2, PyStr.space2 c c2 = false).
  { intros c2. unfold PyStr.space2.
    destruct (Nat.eqb_spec (nat_of_ascii c) 194); [lia | reflexivity]. }
  assert (H3 : forall c2 c3, PyStr.space3 c c2 c3 = false).
  { intros c2 c3. unfold PyStr.space3. cbv zeta.
    destruct (Nat.eqb_spec (nat_of_ascii c) 225); [lia|].
    destruct (Nat.eqb_spec (nat_of_ascii c) 226); [lia|].
    destruct (Nat.eqb_spec (nat_of_ascii c) 227); [lia|]. reflexivity. }
  cbn [PyStr.all_space]. destruct (PyStr.isspace c); [reflexivity|].
  destruct r as [|c2 [|c3 r]]; [reflexivity| |]; now rewrite ?H2, ?H3.
Qed.

Lemma all_space_plain_app (a name : string) :
  forallb (fun c => Nat.ltb (nat_of_ascii c) 128) (list_ascii_of_string a) = true ->
  name <> "" -> PyStr.has_space name = false ->
  PyStr.all_space (a ++ name) = false.
Proof.
  intros Ha Hne Hs. induction a as [|c a IH]; cbn [append].
  - now apply all_space_without.
  - cbn [list_ascii_of_string forallb] in Ha. apply andb_prop in Ha as [Hc Ha].
    rewrite (all_space_plain _ _ Hc), (IH Ha). apply andb_false_r.
Qed.

Lemma rstrip_keep (name : string) :
  PyStr.has_space name = false -> PyStr.rstrip name = name.
Proof.
  induction name as [|c name IH]; intros Hs; [reflexivity|].
  cbn [PyStr.rstrip].
  rewrite (all_space_without (String c name)) by (try discriminate; exact Hs).
  apply has_space_cons in Hs as [_ Hs]. now rewrite (IH Hs).
Qed.

Lemma rstrip_keep_app (a name : string) :
  forallb (fun c => Nat.ltb (nat_of_ascii c) 128) (list_ascii_of_string a) = true ->
  name <> "" -> PyStr.has_space name = false ->
  PyStr.rstrip (a ++ name) = a ++ name.
Proof.
  intros Ha Hne Hs. induction a as [|c a IH]; cbn [append].
  - now apply rstrip_keep.
  - cbn [PyStr.rstrip].
    change (String c (a ++ name)) with (String c a ++ name) at 1.
    rewrite (all_space_plain_app (String c a) name Ha Hne Hs).
    cbn [list_ascii_of_string forallb] in Ha. apply andb_prop in Ha as [_ Ha].
    now rewrite (IH Ha).
Qed.

Lemma no_space_contains (name : string) :
  PyStr.has_space name = false -> PyStr.contains_char " " name = false.
Proof.
  induction name as [|c name IH]; intros Hs; [reflexivity|].
  apply has_space_cons in Hs as [Hw Hs].
  cbn [PyStr.contains_char]. rewrite (IH Hs), orb_false_r.
  apply Ascii.eqb_neq. intros ->. discriminate Hw.
Qed.

(** X21: a message "<@!ID> query aliases NAME", with a NAME in which no
    white-space character occurs, is answered by the QueryProperty handler with the one line
    "aliases: " and the aliases of the game joined by ", " when the catalog
    resolves NAME, and raises [AttributeError] when it does not; the store is
    not touched. *)
Theorem QueryPropertyHandler_aliases (E : Env) (DB : Type)
  (id name clean : string) (author : Player.t) (db : DB) :
  PyStr.contains_char ">" id = false ->
  name <> "" ->
  PyStr.has_space name = false ->
  QueryPropertyHandler.get_all_responses
    (Message.mk ("<@!" ++ id ++ ">" ++ " query aliases " ++ name) clean author) db
  = match lookup_game_by_name_or_alias name with
    | Some game => Ok (["aliases: " ++ PyStr.join ", " (Game.aliases game)], db)
    | None => Raise AttributeError
    end.
Proof.
  intros Hid Hne Hname.
  assert (Hsplit : split_by_first_mention
                     (Message.mk ("<@!" ++ id ++ ">" ++ " query aliases " ++ name)
                                 clean author)
                   = Ok ("<@!" ++ id ++ ">", "query aliases " ++ name)).
  { replace ("<@!" ++ id ++ ">" ++ " query aliases " ++ name)
      with (("<@!" ++ id) ++ ">" ++ " query aliases " ++ name)
      by (rewrite !PyStrFacts.append_assoc; reflexivity).
    replace ("<@!" ++ id ++ ">") with (("<@!" ++ id) ++ ">")
      by (rewrite PyStrFacts.append_assoc; reflexivity).
    rewrite split_by_first_mention_build by (try reflexivity; exact Hid).
    f_equal. f_equal. unfold PyStr.strip.
    change (PyStr.lstrip (" query aliases " ++ name)) with ("query aliases " ++ name).
    now apply rstrip_keep_app. }
  assert (Hparse : QueryPropertyHandler.parse
                     (Message.mk ("<@!" ++ id ++ ">" ++ " query aliases " ++ name)
                                 clean author)
                   = Ok ("aliases", name)).
  { unfold QueryPropertyHandler.parse. rewrite Hsplit.
    unfold QueryPropertyHandler.keywords.
    cbn [MentionMessageHandler.split_string_by_keywords].
    rewrite RemoveFirst.remove_first_same.
    assert (Hc : PyStr.contains "query" ("query aliases " ++ name) = true).
    { apply contains_of_prefix.
      apply (PyStrMore.prefix_app_l "query" "query aliases " name). reflexivity. }
    rewrite Hc. cbn [String.eqb negb andb].
    assert (Hr : PyStr.remove_first "query" ("query aliases " ++ name)
                 = " aliases " ++ name).
    { change ("query aliases " ++ name)
        with (String "q" (String "u" (String "e" (String "r" (String "y"
                (" aliases " ++ name)))))).
      cbn [PyStr.remove_first].
      assert (Hp : String.prefix "query"
                     (String "q" (String "u" (String "e" (String "r" (String "y"
                        (" aliases " ++ name)))))) = true)
        by apply (PyStrMore.prefix_app_l "query" "query" (" aliases " ++ name) eq_refl).
      rewrite Hp. reflexivity. }
    rewrite Hr. unfold PyStr.strip.
    change (PyStr.lstrip (" aliases " ++ name)) with ("aliases " ++ name).
    rewrite (rstrip_keep_app "aliases " name eq_refl Hne Hname).
    change ("aliases " ++ name) with ("aliases" ++ String " " name).
    rewrite SplitFacts.split_app by reflexivity.
    rewrite (SplitFacts.split_absent _ _ (no_space_contains _ Hname)).
    reflexivity. }
  unfold QueryPropertyHandler.get_all_responses. rewrite Hparse.
  unfold QueryPropertyHandler.display. cbn [String.eqb].
  now destruct (lookup_game_by_name_or_alias name).
Qed.

Lemma QueryPropertyHandler_aliases_witness :
  QueryPropertyHandler.get_all_responses (E:=SpecModel.env)
    (Message.mk ("<@!" ++ "42" ++ ">" ++ " query aliases " ++ "baduk") "" SpecModel.alice)
    SpecModel.empty
  = Ok (["aliases: go, baduk"], SpecModel.empty).
Proof.
  apply (QueryPropertyHandler_aliases SpecModel.env SpecModel.Roster
           "42" "baduk" "" SpecModel.alice SpecModel.empty);
    [reflexivity | discriminate | reflexivity].
Defined.

(** ** One handler for a message *)

(** Two prefixes of one text: one is a prefix of the other. *)
Lemma prefix_comparable (a b s : string) :
  String.prefix a s = true -> String.prefix b s = true ->
  String.prefix a b = true \/ String.prefix b a = true.
Proof.
  revert a b; induction s as [|z s IH]; intros [|x a] [|y b] Ha Hb;
    try discriminate; try (left; reflexivity); try (right; reflexivity).
  rewrite PyStrMore.prefix_cons in Ha, Hb.
  destruct (ascii_dec x z) as [->|]; [|discriminate].
  destruct (ascii_dec y z) as [->|]; [|discriminate].
  rewrite !PyStrMore.prefix_cons.
  destruct (ascii_dec z z); [|congruence].
  now apply IH.
Qed.

Lemma incomparable_exclusive (triggers1 triggers2 : list string) (text : string) :
  Triggers.incomparable triggers1 triggers2 = true ->
  existsb (fun t => PyStr.startswith text (PyStr.lower t)) triggers1 = true ->
  existsb (fun t => PyStr.startswith text (PyStr.lower t)) triggers2 = false.
Proof.
  intros Hinc H1.
  apply existsb_exists in H1 as (t1 & Hin1 & Ht1).
  destruct (existsb _ triggers2) eqn:H2; [|reflexivity].
  apply existsb_exists in H2 as (t2 & Hin2 & Ht2).
  unfold Triggers.incomparable in Hinc.
  rewrite forallb_forall in Hinc. specialize (Hinc _ Hin1).
  rewrite forallb_forall in Hinc. specialize (Hinc _ Hin2).
  apply andb_prop in Hinc as [Hn1 Hn2].
  apply negb_true_iff in Hn1, Hn2.
  destruct (prefix_comparable _ _ _ Ht1 Ht2); congruence.
Qed.

(** X22: two mention-triggered handlers whose keywords are incomparable
    (none is, in lower case, a prefix of one of the other handler) never
    both apply to a message.  The keywords of Status, Clear, Cancel, Ping and
    QueryProperty are pairwise incomparable, so at most one of these handlers
    applies to any message. *)
Theorem commands_exclusive (E : Env) (keywords1 keywords2 : list string)
  (message : Message.t) :
  Triggers.incomparable keywords1 keywords2 = true ->
  MentionMessageHandler.should_handle keywords1 message = Ok true ->
  MentionMessageHandler.should_handle keywords2 message = Ok false
  /\ Triggers.pairwise_incomparable Triggers.commands = true.
Proof.
  intros Hinc H1. split; [|reflexivity].
  unfold MentionMessageHandler.should_handle in *.
  destruct (split_by_first_mention message) as [[mention remainder]|e]; [|discriminate].
  injection H1 as H1. apply andb_prop in H1 as [Hbot Hkw].
  now rewrite Hbot, (incomparable_exclusive _ _ _ Hinc Hkw).
Qed.

Lemma commands_exclusive_witness :
  MentionMessageHandler.should_handle (E:=SpecModel.env) CancelHandler.keywords
    (SpecModel.msg SpecModel.alice "<@!42> clear chess") = Ok false
  /\ Triggers.pairwise_incomparable Triggers.commands = true.
Proof.
  apply (commands_exclusive SpecModel.env ClearHandler.keywords CancelHandler.keywords
           (SpecModel.msg SpecModel.alice "<@!42> clear chess")); reflexivity.
Defined.

Lemma lower_mention_start (text : string) :
  PyStr.startswith text "<@" = true ->
  PyStr.startswith (PyStr.lower text) "<@" = true.
Proof.
  unfold PyStr.startswith. intros H.
  destruct text as [|c0 text]; [discriminate|]. rewrite PyStrMore.prefix_cons in H.
  destruct (ascii_dec "<" c0) as [<-|]; [|discriminate].
  destruct text as [|c1 text]; [discriminate|]. rewrite PyStrMore.prefix_cons in H.
  destruct (ascii_dec "@" c1) as [<-|]; [|discriminate].
  cbn [PyStr.lower].
  change (PyStr.lower_char "<") with "<"%char.
  change (PyStr.lower_char "@") with "@"%char.
  apply (PyStrMore.prefix_app_l "<@" "<@" (PyStr.lower text) eq_refl).
Qed.

(** X23: the content-triggered handlers do not overlap with each other or
    with the commands: no message triggers both WouldPlay and Same, and a
    message handled by a mention-triggered handler triggers neither, as long
    as the client id is not the empty string. *)
Theorem content_triggers_exclusive (E : Env) (keywords : list string)
  (message : Message.t) :
  (WouldPlayHandler.should_handle message = true ->
   SameHandler.should_handle message = false)
  /\ (CLIENT_ID <> Some "" ->
      MentionMessageHandler.should_handle keywords message = Ok true ->
      WouldPlayHandler.should_handle message = false
      /\ SameHandler.should_handle message = false).
Proof.
  split.
  - apply (incomparable_exclusive WouldPlayHandler.fragments SameHandler.fragments).
    reflexivity.
  - intros Hid Hm.
    assert (Hstart : PyStr.startswith (Message.content message) "<@" = true).
    { destruct (PyStr.startswith (Message.content message) "<@") eqn:Hs; [reflexivity|].
      assert (Hsplit : split_by_first_mention message = Ok ("", Message.content message)).
      { unfold split_by_first_mention. now rewrite Hs. }
      rewrite (should_handle_after_split E _ _ _ _ Hsplit) in Hm.
      unfold is_bot_mention in Hm. cbn in Hm.
      destruct CLIENT_ID as [c|]; [|discriminate].
      destruct c; [now contradiction Hid | discriminate]. }
    apply lower_mention_start in Hstart.
    assert (Hex : existsb (fun t => PyStr.startswith (PyStr.lower (Message.content message))
                                                     (PyStr.lower t)) ["<@"] = true).
    { cbn [existsb]. change (PyStr.lower "<@") with "<@". now rewrite Hstart. }
    split.
    + apply (incomparable_exclusive ["<@"] WouldPlayHandler.fragments _ eq_refl Hex).
    + apply (incomparable_exclusive ["<@"] SameHandler.fragments _ eq_refl Hex).
Qed.

(** ** Clear, with no game named *)





